(** * Remote-process gateway: gRPC client and WebSocket task handlers

    Shallow embedding of

    - [internal/adapters/grpc/client/remote_process/remote_process_client.go]
      (package [remote_process_client]) and
    - [worker/internal/adapters/websockets/tasks_handlers.go]
      (package [websockets]),

    together with the properties of both that the design document states.

    Conventions of the embedding.
    - A Go [error] is its message (what [%v] prints); [nil] is [None].
    - A goroutine is modelled by the complete run of its body against a
      script of what its environment answers (what [Recv] returns, whether
      the context is done at a poll, whether a write on the socket succeeds).
      A script that ends stands for an environment that never answers again:
      the goroutine is then blocked for ever.
    - [defer] is the code that runs after the body on each of its exits.
    - Of the WebSocket handlers, the log lines, the read and write deadlines
      (their effect is part of the outcome of each write) and the ping
      goroutine, which runs beside the read loop, are left out. *)

From stdpp Require Import base option list strings gmap pretty.
From Stdlib Require Import ZArith Lia.

(** ** Package [context] (standard library), as far as the code uses it *)

Module context.

(** [ctx.Err()]. *)
Inductive Err := ErrNil | Canceled | DeadlineExceeded.

Definition Err_eqb (a b : Err) : bool :=
  match a, b with
  | ErrNil, ErrNil | Canceled, Canceled | DeadlineExceeded, DeadlineExceeded => true
  | _, _ => false
  end.

(** A context as far as deadlines go: the instant (in nanoseconds) at which
    it expires, if any.  [Background] has none. *)
Record t := mk { deadline : option Z }.

Definition Background : t := {| deadline := None |}.

(** [time.Second], a [time.Duration] in nanoseconds. *)
Definition Second : Z := 1000000000.

(** [context.WithTimeout(parent, d)] called at instant [now]: the child
    expires at [now + d], or with its parent when that is earlier. *)
Definition WithTimeout (parent : t) (d : Z) (now : Z) : t :=
  match deadline parent with
  | Some p => {| deadline := Some (Z.min p (now + d)) |}
  | None => {| deadline := Some (now + d)%Z |}
  end.

(** [context.WithCancel(parent)] leaves the deadline alone. *)
Definition WithCancel (parent : t) : t := parent.

End context.

(** ** Go channels, seen from their producer *)

Module channel.

(** [sent]: the values handed over so far, oldest first.  [closed]: whether
    [close] has succeeded.  [closeCalls]: how many times [close] was
    executed.  [room]: how many more values the receiving side will take
    ([None]: it keeps receiving); a send beyond it blocks for ever. *)
Record t (A : Type) := mk {
  sent : list A;
  closed : bool;
  closeCalls : nat;
  room : option nat
}.
Arguments mk {A}.
Arguments sent {A}.
Arguments closed {A}.
Arguments closeCalls {A}.
Arguments room {A}.

(** [make(chan A)] with a consumer that takes [n] values / every value. *)
Definition make {A} (r : option nat) : t A :=
  {| sent := []; closed := false; closeCalls := 0; room := r |}.

Inductive SendResult (A : Type) :=
| SendOk (ch : t A)
| SendBlocks
| SendPanics.
Arguments SendOk {A}.
Arguments SendBlocks {A}.
Arguments SendPanics {A}.

(** [ch <- x]: panics on a closed channel, blocks when nobody receives. *)
Definition send {A} (x : A) (ch : t A) : SendResult A :=
  if closed ch then SendPanics
  else match room ch with
       | None => SendOk {| sent := sent ch ++ [x]; closed := false;
                           closeCalls := closeCalls ch; room := None |}
       | Some (S n) => SendOk {| sent := sent ch ++ [x]; closed := false;
                                 closeCalls := closeCalls ch; room := Some n |}
       | Some O => SendBlocks
       end.

(** [close(ch)]: the flag tells whether the call panicked
    ("close of closed channel"). *)
Definition close {A} (ch : t A) : bool * t A :=
  (closed ch,
   {| sent := sent ch; closed := true;
      closeCalls := S (closeCalls ch); room := room ch |}).

(** [for x := range ch] on the consumer side, run to its end: the values
    received, or [None] when the loop waits for ever on a channel that is
    never closed. *)
Definition range {A} (ch : t A) : option (list A) :=
  if closed ch then Some (sent ch) else None.

(** The receiving side takes at least [n] more values. *)
Definition takes {A} (n : nat) (ch : t A) : Prop :=
  match room ch with
  | None => True
  | Some k => n <= k
  end.

End channel.

(** ** Package [pb]: the messages of [remote_process.proto] *)

Module pb.

Module ProcessStartRequest.
Record t := mk {
  ProcessId : string;
  Command : list string;
  Environment : gmap string string;
  WorkingDirectory : string
}.
End ProcessStartRequest.

Module ProcessOutput.
Record t := mk { ProcessId : string; Output : string; IsError : bool }.
End ProcessOutput.

Module ProcessStopRequest.
Record t := mk { ProcessId : string }.
End ProcessStopRequest.

Module ProcessStopResponse.
Record t := mk { Success : bool; Message : string }.
End ProcessStopResponse.

Module HealthCheckRequest.
Record t := mk { ProcessId : string; CheckInterval : Z }.
End HealthCheckRequest.

Module HealthStatus.
Record t := mk {
  ProcessId : string;
  IsRunning : bool;
  Status : string;
  IsHealthy : bool
}.
End HealthStatus.

End pb.

(** ** Package [remote_process_client] *)

Module remote_process_client.

(** How the body of a goroutine ends. *)
Inductive BodyOutcome :=
| Returned                  (* a [return] *)
| Panicking (v : string)    (* a panic travelling up to the deferred call *)
| Stuck.                    (* blocked for ever *)

(** How the goroutine as a whole ends, deferred call included. *)
Inductive GoExit :=
| Exited                    (* the function returned *)
| Blocked                   (* it never returns *)
| Crashed (v : string).     (* a panic nobody recovered *)

(** *** StartProcess *)

(** One answer of [stream.Recv()]. *)
Inductive RecvResult :=
| RecvFrame (resp : pb.ProcessOutput.t)
| RecvEOF
| RecvError (err : string)
| RecvPanic (v : string).

(** An answer of [Recv] that ends the receiver loop. *)
Definition endsStream (r : RecvResult) : bool :=
  match r with
  | RecvFrame _ => false
  | RecvEOF | RecvError _ | RecvPanic _ => true
  end.

(** The frames the server sends before the answer that ends the stream. *)
Fixpoint framesBefore (script : list RecvResult) : list pb.ProcessOutput.t :=
  match script with
  | RecvFrame resp :: rest => resp :: framesBefore rest
  | _ => []
  end.

(** Whether the script holds an answer that ends the stream. *)
Fixpoint reachesEnd (script : list RecvResult) : bool :=
  match script with
  | [] => false
  | RecvFrame _ :: rest => reachesEnd rest
  | _ => true
  end.

(** The line the goroutine logs on the answer that ends the stream. *)
Definition exitLog (r : RecvResult) : list string :=
  match r with
  | RecvFrame _ | RecvEOF => []
  | RecvError err => ["Error receiving response: " +:+ err]
  | RecvPanic v => ["Recovered in StartProcess: " +:+ v]
  end.

(** The server side of one start-process stream: what opening the stream,
    [Send] and [CloseSend] answer, and the successive answers of [Recv]. *)
Record StartStream := {
  openErr : option string;
  sendErr : option string;
  closeSendErr : option string;
  recvs : list RecvResult
}.

Record Receiver := {
  outputChan : channel.t pb.ProcessOutput.t;
  logs : list string
}.

Definition logPrintf (line : string) (st : Receiver) : Receiver :=
  {| outputChan := outputChan st; logs := logs st ++ [line] |}.

(** The [for] loop of the goroutine started by [StartProcess]. *)
Fixpoint receiveLoop (script : list RecvResult) (st : Receiver)
  : BodyOutcome * Receiver :=
  match script with
  | [] => (Stuck, st)
  | RecvEOF :: _ => (Returned, st)
  | RecvError err :: _ =>
      (Returned, logPrintf ("Error receiving response: " +:+ err) st)
  | RecvPanic v :: _ => (Panicking v, st)
  | RecvFrame resp :: rest =>
      match channel.send resp (outputChan st) with
      | channel.SendOk ch' =>
          receiveLoop rest {| outputChan := ch'; logs := logs st |}
      | channel.SendBlocks => (Stuck, st)
      | channel.SendPanics => (Panicking "send on closed channel", st)
      end
  end.

(** The deferred function: [recover], log what was recovered, then
    [close(outputChan)]. *)
Definition receiveDeferred (o : BodyOutcome) (st : Receiver)
  : GoExit * Receiver :=
  match o with
  | Stuck => (Blocked, st)
  | _ =>
      let st1 :=
        match o with
        | Panicking v => logPrintf ("Recovered in StartProcess: " +:+ v) st
        | _ => st
        end in
      let '(panicked, ch') := channel.close (outputChan st1) in
      let st2 := {| outputChan := ch'; logs := logs st1 |} in
      (if panicked then Crashed "close of closed channel" else Exited, st2)
  end.

Definition receiver (script : list RecvResult) (st : Receiver)
  : GoExit * Receiver :=
  let '(o, st1) := receiveLoop script st in receiveDeferred o st1.

(** What a call of [StartProcess] leaves behind. *)
Record StartResult := {
  startErr : option string;                     (* the returned error *)
  requests : list pb.ProcessStartRequest.t;     (* what [Send] was given *)
  goroutine : option (GoExit * Receiver)        (* the receiver, if started *)
}.

Definition StartProcess (stream : StartStream) (ctx : context.t)
    (processID : string) (command : list string)
    (env : gmap string string) (workingDir : string)
    (outputChan : channel.t pb.ProcessOutput.t) : StartResult :=
  match openErr stream with
  | Some err =>
      {| startErr := Some ("error creating stream: " +:+ err);
         requests := []; goroutine := None |}
  | None =>
      let req := pb.ProcessStartRequest.mk processID command env workingDir in
      match sendErr stream with
      | Some err =>
          {| startErr := Some ("error sending request: " +:+ err);
             requests := [req]; goroutine := None |}
      | None =>
          match closeSendErr stream with
          | Some err =>
              {| startErr := Some ("error closing send stream: " +:+ err);
                 requests := [req]; goroutine := None |}
          | None =>
              {| startErr := None; requests := [req];
                 goroutine :=
                   Some (receiver (recvs stream)
                           {| outputChan := outputChan; logs := [] |}) |}
          end
      end
  end.

(** *** StopProcess *)

Section StopProcess.

(** The generated stub [c.client.StopProcess(ctx, request)], called at
    instant [now]: the instant at which it returns ([None]: never) and
    its answer. *)
Variable client_StopProcess :
  context.t -> Z -> pb.ProcessStopRequest.t ->
  option Z * (pb.ProcessStopResponse.t + string).

Definition StopProcess (ctx : context.t) (now : Z) (processID : string)
  : option Z * (bool * string * option string) :=
  let request := pb.ProcessStopRequest.mk processID in
  let ctx := context.WithTimeout ctx (5 * context.Second) now in
  match client_StopProcess ctx now request with
  | (t, inr err) => (t, (false, "", Some ("error stopping process: " +:+ err)))
  | (t, inl response) =>
      (t, (pb.ProcessStopResponse.Success response,
           pb.ProcessStopResponse.Message response, None))
  end.

End StopProcess.

(** *** MonitorHealth *)

Inductive HealthRecv :=
| HealthFrame (resp : pb.HealthStatus.t)
| HealthEOF
| HealthError (err : string)
| HealthPanic (v : string).

(** What the environment answers during one turn of the loop:
    - [doneAtTop]: [ctx.Done()] is ready at the non-blocking check;
    - [recv]: the answer of [stream.Recv()];
    - [ctxErr]: [ctx.Err()] right after a failed [Recv];
    - [consumerTakes]: a receiver eventually takes a value from
      [healthChan]; [cancelArrives]: [ctx.Done()] eventually gets ready;
      [pickSend]: which of the two the [select] takes when both happen. *)
Record Turn := {
  doneAtTop : bool;
  recv : HealthRecv;
  ctxErr : context.Err;
  consumerTakes : bool;
  cancelArrives : bool;
  pickSend : bool
}.

Inductive SelectResult := SendFired | DoneFired | SelectBlocks.

(** [select { case healthChan <- x: ... case <-ctx.Done(): ... }] *)
Definition selectSendOrDone (t : Turn) : SelectResult :=
  match consumerTakes t, cancelArrives t with
  | true, true => if pickSend t then SendFired else DoneFired
  | true, false => SendFired
  | false, true => DoneFired
  | false, false => SelectBlocks
  end.

(** [healthChan]: the records delivered; [offered]: the records that were
    put forward in the send case of a [select], delivered or not. *)
Record Monitor := {
  healthChan : list pb.HealthStatus.t;
  offered : list pb.HealthStatus.t;
  hlogs : list string
}.

Definition offer (x : pb.HealthStatus.t) (st : Monitor) : Monitor :=
  {| healthChan := healthChan st; offered := offered st ++ [x]; hlogs := hlogs st |}.

Definition deliver (x : pb.HealthStatus.t) (st : Monitor) : Monitor :=
  {| healthChan := healthChan st ++ [x]; offered := offered st; hlogs := hlogs st |}.

Definition hlogPrintf (line : string) (st : Monitor) : Monitor :=
  {| healthChan := healthChan st; offered := offered st; hlogs := hlogs st ++ [line] |}.

(** The record built on a receive error. *)
Definition degraded (processID err : string) : pb.HealthStatus.t :=
  pb.HealthStatus.mk processID false ("Error receiving response: " +:+ err) false.

(** The [for] loop of the goroutine started by [MonitorHealth]. *)
Fixpoint monitorLoop (processID : string) (script : list Turn) (st : Monitor)
  : BodyOutcome * Monitor :=
  match script with
  | [] => (Stuck, st)
  | t :: rest =>
      if doneAtTop t then (Returned, st)
      else
        match recv t with
        | HealthEOF => (Returned, st)
        | HealthPanic v => (Panicking v, st)
        | HealthError err =>
            if context.Err_eqb (ctxErr t) context.Canceled then (Returned, st)
            else
              let st := hlogPrintf ("Error receiving response: " +:+ err) st in
              let st := offer (degraded processID err) st in
              match selectSendOrDone t with
              | SendFired => (Returned, deliver (degraded processID err) st)
              | DoneFired => (Returned, st)
              | SelectBlocks => (Stuck, st)
              end
        | HealthFrame resp =>
            let st := offer resp st in
            match selectSendOrDone t with
            | SendFired => monitorLoop processID rest (deliver resp st)
            | DoneFired => (Returned, st)
            | SelectBlocks => (Stuck, st)
            end
        end
  end.

(** The frames the server sends in the turns of a script. *)
Fixpoint healthFrames (script : list Turn) : list pb.HealthStatus.t :=
  match script with
  | [] => []
  | t :: rest =>
      match recv t with
      | HealthFrame resp => resp :: healthFrames rest
      | _ => healthFrames rest
      end
  end.

(** The deferred function only recovers and logs. *)
Definition monitorDeferred (o : BodyOutcome) (st : Monitor) : GoExit * Monitor :=
  match o with
  | Stuck => (Blocked, st)
  | Returned => (Exited, st)
  | Panicking v => (Exited, hlogPrintf ("Recovered in MonitorHealth: " +:+ v) st)
  end.

Record HealthStream := {
  hopenErr : option string;
  hsendErr : option string;
  turns : list Turn
}.

Record MonitorResult := {
  monitorErr : option string;
  hrequests : list pb.HealthCheckRequest.t;
  monitor : option (GoExit * Monitor)
}.

Definition MonitorHealth (stream : HealthStream) (ctx : context.t)
    (processID : string) (checkInterval : Z) : MonitorResult :=
  match hopenErr stream with
  | Some err =>
      {| monitorErr := Some ("error creating stream: " +:+ err);
         hrequests := []; monitor := None |}
  | None =>
      let req := pb.HealthCheckRequest.mk processID checkInterval in
      match hsendErr stream with
      | Some err =>
          {| monitorErr := Some ("error sending request: " +:+ err);
             hrequests := [req]; monitor := None |}
      | None =>
          {| monitorErr := None; hrequests := [req];
             monitor :=
               Some (let '(o, st) :=
                       monitorLoop processID (turns stream)
                         {| healthChan := []; offered := []; hlogs := [] |} in
                     monitorDeferred o st) |}
      end
  end.

End remote_process_client.

(** ** Package [domain]

    The package is not among the sources at hand.  Its records are given with
    the fields the handlers read and write; what the handlers only name (the
    status type of an output record with its [String] method, and the
    constants) is kept abstract. *)

Module domain.

Class Package := {
  Status : Type;                    (* type of [ProcessOutput.Status] *)
  Status_String : Status -> string; (* its method [String()] *)
  FINISHED : Status;
  Scheduled : string;               (* a task state *)
  Completed : string                (* a task state *)
}.

Record WorkerSpec := {
  Type' : string;
  Image : string;
  Command : list string;
  Env : gmap string string;
  WorkingDir : string
}.

(** [State] is converted with [string(task.State)]: a string type. *)
Record Task := {
  ID : string;
  Name : string;
  State : string;
  Spec : WorkerSpec;
  CreatedAt : Z
}.

Record ProcessOutput `{Package} := {
  Output : string;
  IsError : bool;
  OutputStatus : Status
}.

End domain.

(** ** Package [websockets] *)

Module websockets.

(** *** Wire types *)

Record WSMessage := { Action : string; Payload : string }.

Record TaskRequest := {
  Name : string;
  Image : string;
  Command : list string;
  Env : gmap string string;
  WorkingDir : string;
  InstanceType : string;
  Timeout : Z
}.

Record TaskResponse := {
  TaskID : string;
  Status : string;
  Output : string;
  Error : string;
  IsError : bool;
  ExitCode : string;
  CompletedAt : string
}.

(** What [sendJSON] is given as [data interface{}]. *)
Inductive Data :=
| DataResponse (resp : TaskResponse)
| DataTasks (tasks : list domain.Task).

(** What the handlers use of [encoding/json], [uuid] and [time]. *)
Class Libraries := {
  json_Marshal : Data -> option string;
  json_Unmarshal_TaskRequest : string -> option TaskRequest;
  json_Unmarshal_TaskID : string -> option string;  (* into [struct{TaskID}] *)
  uuid_New : nat -> string;             (* the n-th identifier drawn *)
  Format_RFC3339 : Z -> string
}.

(** *** The connection *)

Inductive Frame :=
| EnvelopeFrame (msg : WSMessage)     (* [WriteJSON] of a [WSMessage] *)
| DoneFrame (done : bool) (exit_code : Z) (message status : string)
                                      (* [WriteJSON] of the [doneMsg] map *)
| CloseFrame (code : Z) (text : string)
| PingFrame.

(** [attempts]: every write tried on the socket, oldest first, with whether
    it succeeded.  [outcomes]: whether the coming writes succeed (a write
    deadline that passes, a broken socket, a close frame already sent make
    one fail); once the script is used up, writes succeed. *)
Record Conn := {
  attempts : list (Frame * bool);
  outcomes : list bool;
  connClosed : bool
}.

(** The frames that reached the client. *)
Definition wire (c : Conn) : list Frame := (filter (fun a => snd a = true) (attempts c)).*1.

(** Every frame a write was tried for. *)
Definition tried (c : Conn) : list Frame := (attempts c).*1.

Definition CloseNormalClosure : Z := 1000.

(** *** The task executor behind [h.worker] *)

Section WithDomain.

Context `{D : domain.Package}.

Inductive Call :=
| CallAddTask (ctx : context.t) (task : domain.Task)
| CallStopTask (id : string)
| CallGetTask (id : string)
| CallGetTasks.

(** The executor is an outside component; each answer may depend on the
    calls made before.  The channel [AddTask] returns is given in the state
    its producer leaves it in. *)
Record Worker := {
  AddTask : list Call -> context.t -> domain.Task ->
            channel.t domain.ProcessOutput + string;
  StopTask : list Call -> string -> option string;
  GetTask : list Call -> string -> domain.Task + string;
  GetTasks : list Call -> list domain.Task + string
}.

Record WSHandler := { worker : Worker }.

(** *** State threaded through a handler *)

Record World := {
  conn : Conn;
  calls : list Call;        (* calls made on the executor, oldest first *)
  ctxDone : list bool;      (* answers of the coming polls of [ctx.Done()] *)
  drawn : nat;              (* identifiers drawn from [uuid.New] *)
  now : Z                   (* [time.Now()] *)
}.

(** A computation either returns a value or hangs for ever (it waits on a
    channel that is never closed); the state it reached is kept. *)
Definition M (A : Type) : Type := World -> option A * World.

Definition ret {A} (a : A) : M A := fun w => (Some a, w).

Definition bind {A B} (m : M A) (k : A -> M B) : M B :=
  fun w => match m w with
           | (Some a, w') => k a w'
           | (None, w') => (None, w')
           end.

Definition hang {A} : M A := fun w => (None, w).

End WithDomain.

Declare Scope go_scope.
Delimit Scope go_scope with go.
Notation "x <- m ;; k" := (bind m (fun x => k))
  (at level 100, m at next level, right associativity) : go_scope.
Notation "m ;;; k" := (bind m (fun _ => k))
  (at level 100, right associativity) : go_scope.
Local Open Scope go_scope.

Section Handlers.

Context `{D : domain.Package} `{L : Libraries}.

(** One write on the socket ([WriteJSON], [WriteMessage], [WriteControl]). *)
Definition connWrite (f : Frame) : M bool := fun w =>
  let c := conn w in
  let ok := match outcomes c with [] => true | b :: _ => b end in
  (Some ok,
   {| conn := {| attempts := attempts c ++ [(f, ok)];
                 outcomes := tail (outcomes c);
                 connClosed := connClosed c |};
      calls := calls w; ctxDone := ctxDone w; drawn := drawn w; now := now w |}).

(** [conn.Close()] *)
Definition connClose : M unit := fun w =>
  let c := conn w in
  (Some tt,
   {| conn := {| attempts := attempts c; outcomes := outcomes c;
                 connClosed := true |};
      calls := calls w; ctxDone := ctxDone w; drawn := drawn w; now := now w |}).

(** [select { case <-ctx.Done(): ... default: ... }] *)
Definition pollDone : M bool := fun w =>
  (Some (match ctxDone w with [] => false | b :: _ => b end),
   {| conn := conn w; calls := calls w; ctxDone := tail (ctxDone w);
      drawn := drawn w; now := now w |}).

Definition timeNow : M Z := fun w => (Some (now w), w).

Definition uuidNew : M string := fun w =>
  (Some (uuid_New (drawn w)),
   {| conn := conn w; calls := calls w; ctxDone := ctxDone w;
      drawn := S (drawn w); now := now w |}).

Definition record (c : Call) : M unit := fun w =>
  (Some tt,
   {| conn := conn w; calls := calls w ++ [c]; ctxDone := ctxDone w;
      drawn := drawn w; now := now w |}).

Definition history : M (list Call) := fun w => (Some (calls w), w).

(** *** sendPing *)

(** What the [select] of [sendPing] meets in one turn. *)
Inductive PingEvent :=
| Tick          (* the ticker fires *)
| CtxDone.      (* [ctx.Done()] is ready *)

(** The loop of [sendPing]: after [events] neither the ticker nor the
    context gets ready any more.  The goroutine runs beside the read loop;
    here it is run on its own. *)
Fixpoint sendPing (events : list PingEvent) : M unit :=
  match events with
  | [] => hang
  | Tick :: rest =>
      ok <- connWrite PingFrame;;
      if ok then sendPing rest else ret tt
  | CtxDone :: _ => ret tt
  end.

(** The ticks that come before the context is done. *)
Fixpoint leadingTicks (events : list PingEvent) : nat :=
  match events with
  | Tick :: rest => S (leadingTicks rest)
  | _ => 0
  end.

(** The identifiers of the tasks handed to [AddTask] among the calls [cs]. *)
Definition addedIDs (cs : list Call) : list string :=
  omap (fun c => match c with
                 | CallAddTask _ task => Some (domain.ID task)
                 | _ => None
                 end) cs.

(** From [w] to [w'] the executor was called with [cs], the writes [fs] were
    tried on the socket and [ids] identifiers were drawn; the connection was
    not closed. *)
Definition ran (w w' : World) (cs : list Call) (fs : list (Frame * bool))
    (ids : nat) : Prop :=
  calls w' = calls w ++ cs /\
  attempts (conn w') = attempts (conn w) ++ fs /\
  connClosed (conn w') = connClosed (conn w) /\
  drawn w' = drawn w + ids /\
  now w' = now w.

Variable h : WSHandler.

Definition worker_AddTask (ctx : context.t) (task : domain.Task)
  : M (channel.t domain.ProcessOutput + string) :=
  past <- history;;
  record (CallAddTask ctx task);;;
  ret (AddTask (worker h) past ctx task).

Definition worker_StopTask (id : string) : M (option string) :=
  past <- history;;
  record (CallStopTask id);;;
  ret (StopTask (worker h) past id).

Definition worker_GetTask (id : string) : M (domain.Task + string) :=
  past <- history;;
  record (CallGetTask id);;;
  ret (GetTask (worker h) past id).

Definition worker_GetTasks : M (list domain.Task + string) :=
  past <- history;;
  record CallGetTasks;;;
  ret (GetTasks (worker h) past).

(** *** sendJSON, sendError *)

(** [json.Marshal], then [SetWriteDeadline] and [WriteJSON]; the result
    tells whether both succeeded. *)
Definition sendJSON (action : string) (data : Data) : M bool :=
  match json_Marshal data with
  | None => ret false
  | Some raw => connWrite (EnvelopeFrame {| Action := action; Payload := raw |})
  end.

Definition sendError (code message : string) : M unit :=
  sendJSON "task_error"
    (DataResponse {| TaskID := ""; Status := ""; Output := "";
                     Error := message; IsError := true; ExitCode := code;
                     CompletedAt := "" |});;;
  ret tt.

(** The frames a call [sendJSON action data] tries to write: one envelope,
    or none when the data cannot be serialised. *)
Definition envelopes (action : string) (data : Data) : list Frame :=
  match json_Marshal data with
  | Some raw => [EnvelopeFrame {| Action := action; Payload := raw |}]
  | None => []
  end.

(** Whether the coming write on the socket succeeds. *)
Definition nextWriteOk (c : Conn) : bool :=
  match outcomes c with [] => true | b :: _ => b end.

(** The response [sendError] serialises. *)
Definition errorResponse (code message : string) : TaskResponse :=
  {| TaskID := ""; Status := ""; Output := ""; Error := message;
     IsError := true; ExitCode := code; CompletedAt := "" |}.

(** A [task_output] envelope. *)
Definition isTaskOutput (f : Frame) : bool :=
  match f with
  | EnvelopeFrame msg => String.eqb (Action msg) "task_output"
  | _ => false
  end.

(** From [w] to [w'] nothing happened but the writes [fs], tried in this
    order on the socket. *)
Definition onlyWrote (w w' : World) (fs : list (Frame * bool)) : Prop :=
  attempts (conn w') = attempts (conn w) ++ fs /\
  outcomes (conn w') = drop (length fs) (outcomes (conn w)) /\
  connClosed (conn w') = connClosed (conn w) /\
  calls w' = calls w /\ ctxDone w' = ctxDone w /\
  drawn w' = drawn w /\ now w' = now w.

(** Of the writes [fs], the frames that reached the client. *)
Definition successes (fs : list (Frame * bool)) : list Frame :=
  (filter (fun a => snd a = true) fs).*1.

(** Of the frames [fs], the [task_output] envelopes. *)
Definition outputsOf (fs : list Frame) : list Frame :=
  filter (fun f => isTaskOutput f = true) fs.

(** The writes [fs], all with the outcome [ok]. *)
Definition withOutcome (ok : bool) (fs : list Frame) : list (Frame * bool) :=
  (fun f => (f, ok)) <$> fs.

(** *** handleCreateTask *)

(** [int64] arithmetic of [time.Duration]. *)
Definition int64 (z : Z) : Z := ((z + 2 ^ 63) mod 2 ^ 64 - 2 ^ 63)%Z.

Definition createTaskFromRequest (parent : context.t) (req : TaskRequest)
  : M (domain.Task * context.t) :=
  t <- timeNow;;
  let taskCtx := context.WithCancel parent in
  let taskCtx :=
    if (0 <? Timeout req)%Z
    then context.WithTimeout taskCtx (int64 (Timeout req * context.Second)) t
    else taskCtx in
  id <- uuidNew;;
  ret ({| domain.ID := id;
          domain.Name := Name req;
          domain.State := domain.Scheduled;
          domain.Spec := {| domain.Type' := InstanceType req;
                            domain.Image := Image req;
                            domain.Command := Command req;
                            domain.Env := Env req;
                            domain.WorkingDir := WorkingDir req |};
          domain.CreatedAt := t |}, taskCtx).

(** How a relay loop over an output channel is left. *)
Inductive RelayExit :=
| ChannelClosed       (* the [range] loop ran to its end *)
| MarshalFailed       (* [return] after [json.Marshal] failed *)
| WriteFailed         (* [return] after a write on the socket failed *)
| ContextDone.        (* [return] after [ctx.Done()] was seen *)

Definition outputResponse (taskID : string) (output : domain.ProcessOutput)
  : TaskResponse :=
  {| TaskID := taskID;
     Status := domain.Status_String (domain.OutputStatus output);
     Output := domain.Output output;
     Error := "";
     IsError := domain.IsError output;
     ExitCode := "";
     CompletedAt := "" |}.

(** [for output := range outputChan { ... }] of [handleCreateTask]:
    [pending] are the values still to come, [closes] tells whether the
    channel is closed after them. *)
Fixpoint relayOutputs (taskID : string) (pending : list domain.ProcessOutput)
    (closes : bool) : M RelayExit :=
  match pending with
  | [] => if closes then ret ChannelClosed else hang
  | output :: rest =>
      let resp := outputResponse taskID output in
      match json_Marshal (DataResponse resp) with
      | None => ret MarshalFailed
      | Some payload =>
          let msg := {| Action := "task_output"; Payload := payload |} in
          ok <- connWrite (EnvelopeFrame msg);;
          if ok then relayOutputs taskID rest closes else ret WriteFailed
      end
  end.

(** The frames written for one output record. *)
Definition outputFrames (taskID : string) (output : domain.ProcessOutput)
  : list Frame :=
  envelopes "task_output" (DataResponse (outputResponse taskID output)).

(** The frame of the final "done" message. *)
Definition doneMsg : Frame :=
  DoneFrame true 0 "Process completed successfully"
            (domain.Status_String domain.FINISHED).

Definition handleCreateTask (ctx : context.t) (payload : string) : M unit :=
  match json_Unmarshal_TaskRequest payload with
  | None => sendError "invalid_request" "Error decoding task request"
  | Some req =>
      if String.eqb (Name req) "" || String.eqb (Image req) ""
      then sendError "validation_error" "Name and Image are required fields"
      else
        created <- createTaskFromRequest ctx req;;
        let '(task, taskCtx) := created in
        r <- worker_AddTask taskCtx task;;
        match r with
        | inr err => sendError "create_error" ("Error creating task: " +:+ err)
        | inl outputChan =>
            e <- relayOutputs (domain.ID task) (channel.sent outputChan)
                              (channel.closed outputChan);;
            match e with
            | ChannelClosed =>
                connWrite doneMsg;;;
                connWrite (CloseFrame CloseNormalClosure "Process finished");;;
                ret tt
            | _ => ret tt
            end
        end
  end.

(** *** streamTaskOutput, sendTaskCompletion *)

Definition completionResponse (taskID : string) (task : domain.Task) (t : Z)
  : TaskResponse :=
  let completed := String.eqb (domain.State task) domain.Completed in
  {| TaskID := taskID;
     Status := domain.State task;
     Output := "";
     Error := if completed then "" else "Task failed to complete";
     IsError := false;
     ExitCode := if completed then "COMPLETED" else "1";
     CompletedAt := Format_RFC3339 t |}.

Definition sendTaskCompletion (ctx : context.t) (taskID : string) : M unit :=
  r <- worker_GetTask taskID;;
  match r with
  | inr err => sendError "task_error" ("Error getting task status: " +:+ err)
  | inl task =>
      t <- timeNow;;
      sendJSON "task_completed" (DataResponse (completionResponse taskID task t));;;
      ret tt
  end.

(** The frames [sendTaskCompletion] tries to write in the world [w]. *)
Definition completionFrames (taskID : string) (w : World) : list Frame :=
  match GetTask (worker h) (calls w) taskID with
  | inl task =>
      envelopes "task_completed"
        (DataResponse (completionResponse taskID task (now w)))
  | inr err =>
      envelopes "task_error"
        (DataResponse (errorResponse "task_error"
                         ("Error getting task status: " +:+ err)))
  end.

(** The [range] loop of [streamTaskOutput]. *)
Fixpoint streamOutputs (taskID : string) (pending : list domain.ProcessOutput)
    (closes : bool) : M RelayExit :=
  match pending with
  | [] => if closes then ret ChannelClosed else hang
  | output :: rest =>
      ok <- sendJSON "task_output" (DataResponse (outputResponse taskID output));;
      if negb ok then ret WriteFailed
      else
        done <- pollDone;;
        if done then
          worker_StopTask taskID;;;
          ret ContextDone
        else
          connWrite PingFrame;;;
          streamOutputs taskID rest closes
  end.

(** The deferred [sendTaskCompletion] runs after the loop on each of its
    [return]s; a loop that hangs never reaches it. *)
Definition streamTaskOutput (ctx : context.t) (taskID : string)
    (outputChan : channel.t domain.ProcessOutput) : M unit :=
  streamOutputs taskID (channel.sent outputChan) (channel.closed outputChan);;;
  sendTaskCompletion ctx taskID.

(** *** handleStopTask, handleListTasks *)

Definition handleStopTask (ctx : context.t) (payload : string) : M unit :=
  match json_Unmarshal_TaskID payload with
  | None => sendError "invalid_request" "Invalid task ID format"
  | Some id =>
      r <- worker_StopTask id;;
      match r with
      | Some err => sendError "stop_error" err
      | None =>
          sendJSON "task_stopped"
            (DataResponse {| TaskID := id; Status := "stopped"; Output := "";
                             Error := ""; IsError := false; ExitCode := "";
                             CompletedAt := "" |});;;
          ret tt
      end
  end.

Definition handleListTasks (ctx : context.t) : M unit :=
  r <- worker_GetTasks;;
  match r with
  | inr _ => sendError "list_error" "Error retrieving tasks"
  | inl tasks => sendJSON "task_list" (DataTasks tasks);;; ret tt
  end.

(** *** HandleConnection *)

(** The [switch msg.Action] of the read loop. *)
Definition dispatch (ctx : context.t) (msg : WSMessage) : M unit :=
  if String.eqb (Action msg) "create_task" then handleCreateTask ctx (Payload msg)
  else if String.eqb (Action msg) "stop_task" then handleStopTask ctx (Payload msg)
  else if String.eqb (Action msg) "list_tasks" then handleListTasks ctx
  else sendError "unknown_action" "Unsupported action type".

(** The read loop: [inbox] are the messages [ReadJSON] decodes, one per
    turn; after them [ReadJSON] fails and the loop is left. *)
Fixpoint readLoop (ctx : context.t) (inbox : list WSMessage) : M unit :=
  match inbox with
  | [] => ret tt
  | msg :: rest => dispatch ctx msg;;; readLoop ctx rest
  end.

(** The errors the handlers recover from, by the condition that raises
    them: [LocalError msg w code message] says that handling [msg] in the
    world [w] meets the error [code], reported with [message]. *)
Inductive LocalError (ctx : context.t) (msg : WSMessage) (w : World)
  : string -> string -> Prop :=
| CreateUndecodable :
    Action msg = "create_task" ->
    json_Unmarshal_TaskRequest (Payload msg) = None ->
    LocalError ctx msg w "invalid_request" "Error decoding task request"
| StopUndecodable :
    Action msg = "stop_task" ->
    json_Unmarshal_TaskID (Payload msg) = None ->
    LocalError ctx msg w "invalid_request" "Invalid task ID format"
| CreateInvalid req :
    Action msg = "create_task" ->
    json_Unmarshal_TaskRequest (Payload msg) = Some req ->
    Name req = "" \/ Image req = "" ->
    LocalError ctx msg w "validation_error" "Name and Image are required fields"
| CreateRefused req task taskCtx w1 err :
    Action msg = "create_task" ->
    json_Unmarshal_TaskRequest (Payload msg) = Some req ->
    Name req <> "" -> Image req <> "" ->
    createTaskFromRequest ctx req w = (Some (task, taskCtx), w1) ->
    AddTask (worker h) (calls w1) taskCtx task = inr err ->
    LocalError ctx msg w "create_error" ("Error creating task: " +:+ err)
| StopRefused id err :
    Action msg = "stop_task" ->
    json_Unmarshal_TaskID (Payload msg) = Some id ->
    StopTask (worker h) (calls w) id = Some err ->
    LocalError ctx msg w "stop_error" err
| ListRefused err :
    Action msg = "list_tasks" ->
    GetTasks (worker h) (calls w) = inr err ->
    LocalError ctx msg w "list_error" "Error retrieving tasks"
| ActionUnknown :
    Action msg <> "create_task" ->
    Action msg <> "stop_task" ->
    Action msg <> "list_tasks" ->
    LocalError ctx msg w "unknown_action" "Unsupported action type".

End Handlers.

(** *** The upgrade *)

(** An upgrade request: its [Origin] header, its [Host], whether the rest of
    the handshake (method, headers, key) is in order, and its context. *)
Record Request := {
  Origin : option string;
  Host : string;
  handshake : bool;
  reqContext : context.t
}.

Record Upgrader := {
  ReadBufferSize : Z;
  WriteBufferSize : Z;
  CheckOrigin : Request -> bool
}.

Definition upgrader : Upgrader :=
  {| ReadBufferSize := 1024;
     WriteBufferSize := 1024;
     CheckOrigin := fun r => true |}.

(** [Upgrader.Upgrade] of gorilla/websocket, as far as admission goes: the
    handshake is checked, then [CheckOrigin] is asked once.  The result is
    the error, if any. *)
Definition Upgrade (u : Upgrader) (r : Request) : option string :=
  if negb (handshake r) then Some "websocket: bad handshake"
  else if negb (CheckOrigin u r)
       then Some "websocket: request origin not allowed by Upgrader.CheckOrigin"
       else None.

Section Connection.

Context `{D : domain.Package} `{L : Libraries}.
Variable h : WSHandler.

(** [HandleConnection]: the flag tells whether the request was upgraded.
    The ping goroutine writes concurrently and is left out. *)
Definition HandleConnection (r : Request) (inbox : list WSMessage) : M bool :=
  match Upgrade upgrader r with
  | Some _ => ret false
  | None =>
      let ctx := context.WithCancel (reqContext r) in
      readLoop h ctx inbox;;;
      connWrite (CloseFrame CloseNormalClosure "Closing normally");;;
      connClose;;;
      ret true
  end.

End Connection.

End websockets.

(** ** Test doubles

    Concrete servers, executors and libraries on which the properties below
    are exercised. *)

Module doubles.

(** A server that never answers [StopProcess]: the stub returns when the
    context expires, and never without a deadline. *)
Definition stalledStop (ctx : context.t) (now : Z) (req : pb.ProcessStopRequest.t)
  : option Z * (pb.ProcessStopResponse.t + string) :=
  match context.deadline ctx with
  | Some d => (Some (Z.max now d), inr "rpc error: code = DeadlineExceeded desc = context deadline exceeded")
  | None => (None, inr "")
  end.

(** A start-process stream that delivers two frames and then breaks with a
    panic inside [Recv]. *)
Definition faultyStart : remote_process_client.StartStream :=
  {| remote_process_client.openErr := None;
     remote_process_client.sendErr := None;
     remote_process_client.closeSendErr := None;
     remote_process_client.recvs :=
       [remote_process_client.RecvFrame (pb.ProcessOutput.mk "p1" "hello" false);
        remote_process_client.RecvFrame (pb.ProcessOutput.mk "p1" "world" false);
        remote_process_client.RecvPanic "runtime error: invalid memory address"] |}.

(** A turn of the health loop in which [Recv] fails. *)
Definition failingTurn (e : context.Err) (takes cancelled : bool)
  : remote_process_client.Turn :=
  {| remote_process_client.doneAtTop := false;
     remote_process_client.recv :=
       remote_process_client.HealthError "rpc error: code = Unavailable desc = transport is closing";
     remote_process_client.ctxErr := e;
     remote_process_client.consumerTakes := takes;
     remote_process_client.cancelArrives := cancelled;
     remote_process_client.pickSend := true |}.

(** A health stream whose first [Recv] fails. *)
Definition brokenHealth (e : context.Err) (takes cancelled : bool)
  : remote_process_client.HealthStream :=
  {| remote_process_client.hopenErr := None;
     remote_process_client.hsendErr := None;
     remote_process_client.turns := [failingTurn e takes cancelled] |}.

(** The statuses of an output record. *)
Inductive Status := RUNNING | FINISHED | FAILED.

Definition Status_String (s : Status) : string :=
  match s with RUNNING => "RUNNING" | FINISHED => "FINISHED" | FAILED => "FAILED" end.

Definition package : domain.Package :=
  {| domain.Status := Status;
     domain.Status_String := Status_String;
     domain.FINISHED := FINISHED;
     domain.Scheduled := "Scheduled";
     domain.Completed := "Completed" |}.

(** A serialisation of the data handed to [sendJSON], field by field. *)
Definition encode (d : websockets.Data) : string :=
  match d with
  | websockets.DataResponse r =>
      "task_id=" +:+ websockets.TaskID r +:+
      ";status=" +:+ websockets.Status r +:+
      ";output=" +:+ websockets.Output r +:+
      ";error=" +:+ websockets.Error r +:+
      ";is_error=" +:+ (if websockets.IsError r then "true" else "false") +:+
      ";exit_code=" +:+ websockets.ExitCode r +:+
      ";completed_at=" +:+ websockets.CompletedAt r
  | websockets.DataTasks ts => "tasks=" +:+ String.concat "," (domain.ID <$> ts)
  end.

(** A complete request. *)
Definition hello : websockets.TaskRequest :=
  {| websockets.Name := "hello"; websockets.Image := "demo";
     websockets.Command := ["echo"; "hi"]; websockets.Env := ∅;
     websockets.WorkingDir := ""; websockets.InstanceType := "docker";
     websockets.Timeout := 0 |}.

(** A decoder that knows two [create_task] payloads: the complete request and
    one without a name. *)
Definition decodeRequest (payload : string) : option websockets.TaskRequest :=
  if String.eqb payload "name=hello;image=demo" then Some hello
  else if String.eqb payload "image=demo" then
    Some {| websockets.Name := ""; websockets.Image := "demo";
            websockets.Command := []; websockets.Env := ∅;
            websockets.WorkingDir := ""; websockets.InstanceType := "";
            websockets.Timeout := 0 |}
  else None.

Definition decodeTaskID (payload : string) : option string :=
  if String.eqb payload "" then None else Some payload.

Definition identifier (n : nat) : string :=
  match n with 0 => "task-0" | 1 => "task-1" | _ => "task-n" end.

(** Identifiers that never repeat. *)
Definition serial (n : nat) : string := "task-" +:+ pretty n.

(** Libraries whose encoder accepts everything. *)
Definition libs : websockets.Libraries :=
  {| websockets.json_Marshal := fun d => Some (encode d);
     websockets.json_Unmarshal_TaskRequest := decodeRequest;
     websockets.json_Unmarshal_TaskID := decodeTaskID;
     websockets.uuid_New := identifier;
     websockets.Format_RFC3339 := fun _ => "2025-01-24T19:06:51Z" |}.

(** The same libraries, drawing the identifiers [serial]. *)
Definition serialLibs : websockets.Libraries :=
  {| websockets.json_Marshal := fun d => Some (encode d);
     websockets.json_Unmarshal_TaskRequest := decodeRequest;
     websockets.json_Unmarshal_TaskID := decodeTaskID;
     websockets.uuid_New := serial;
     websockets.Format_RFC3339 := fun _ => "2025-01-24T19:06:51Z" |}.

(** Libraries whose encoder refuses the responses whose output is
    [unencodable]. *)
Definition unencodable : string := "<unencodable>".

Definition strictLibs : websockets.Libraries :=
  {| websockets.json_Marshal := fun d =>
       match d with
       | websockets.DataResponse r =>
           if String.eqb (websockets.Output r) unencodable then None
           else Some (encode d)
       | _ => Some (encode d)
       end;
     websockets.json_Unmarshal_TaskRequest := decodeRequest;
     websockets.json_Unmarshal_TaskID := decodeTaskID;
     websockets.uuid_New := identifier;
     websockets.Format_RFC3339 := fun _ => "2025-01-24T19:06:51Z" |}.

Definition line (text : string) (isError : bool) (s : Status)
  : @domain.ProcessOutput package :=
  @domain.Build_ProcessOutput package text isError s.

(** The channel of a task, left closed by its producer after [outs]. *)
Definition closedChan (outs : list (@domain.ProcessOutput package))
  : channel.t (@domain.ProcessOutput package) :=
  {| channel.sent := outs; channel.closed := true;
     channel.closeCalls := 1; channel.room := None |}.

(** An executor that runs every task with the output [outs] and knows every
    task to be in the state [final] (or not at all). *)
Definition executor (outs : list (@domain.ProcessOutput package))
    (final : string + string) : @websockets.WSHandler package :=
  {| websockets.worker :=
       {| websockets.AddTask := fun _ _ _ => inl (closedChan outs);
          websockets.StopTask := fun _ _ => None;
          websockets.GetTask := fun _ id =>
            match final with
            | inl state =>
                inl {| domain.ID := id; domain.Name := "hello"; domain.State := state;
                       domain.Spec := {| domain.Type' := "docker"; domain.Image := "demo";
                                         domain.Command := []; domain.Env := ∅;
                                         domain.WorkingDir := "" |};
                       domain.CreatedAt := 0 |}
            | inr err => inr err
            end;
          websockets.GetTasks := fun _ => inl [] |} |}.

(** An executor whose tasks put out [outs] and whose channel is never
    closed. *)
Definition streaming (outs : list (@domain.ProcessOutput package))
  : @websockets.WSHandler package :=
  {| websockets.worker :=
       {| websockets.AddTask := fun _ _ _ =>
            inl {| channel.sent := outs; channel.closed := false;
                   channel.closeCalls := 0; channel.room := None |};
          websockets.StopTask := fun _ _ => None;
          websockets.GetTask := fun _ _ => inr "task not found";
          websockets.GetTasks := fun _ => inl [] |} |}.

(** A fresh connection on which the coming writes end as [outcomes] tell,
    with the coming polls of the context answering [polls]. *)
Definition world (outcomes polls : list bool) : websockets.World :=
  {| websockets.conn := {| websockets.attempts := [];
                           websockets.outcomes := outcomes;
                           websockets.connClosed := false |};
     websockets.calls := [];
     websockets.ctxDone := polls;
     websockets.drawn := 0;
     websockets.now := 1737745611000000000 |}.

End doubles.

(** * Properties *)

(** ** Properties of [remote_process_client] *)

Section ReceiverFacts.

Import remote_process_client.

(** The loop itself never closes the channel. *)
Lemma receiveLoop_keeps_open script : forall st o st',
    channel.closed (outputChan st) = false ->
    receiveLoop script st = (o, st') ->
    channel.closed (outputChan st') = false /\
    channel.closeCalls (outputChan st') = channel.closeCalls (outputChan st).
Proof.
    induction script as [|r script IH]; intros st o st' Hopen Hrun; simpl in Hrun.
    - by inversion Hrun; subst.
    - destruct r as [resp| |err|v]; try (by inversion Hrun; subst).
      unfold channel.send in Hrun. rewrite Hopen in Hrun.
      destruct (channel.room (outputChan st)) as [[|n]|] eqn:Hroom;
        try (by inversion Hrun; subst);
        apply IH in Hrun; simpl in *; try done.
Qed.

(** Frames are forwarded in the order received, up to the answer that ends
    the stream. *)
Lemma receiveLoop_forwards frames : forall t rest st,
    endsStream t = true ->
    channel.closed (outputChan st) = false ->
    channel.takes (length frames) (outputChan st) ->
    exists o st',
      receiveLoop ((RecvFrame <$> frames) ++ t :: rest) st = (o, st') /\
      o <> Stuck /\
      channel.sent (outputChan st') = channel.sent (outputChan st) ++ frames.
Proof.
    induction frames as [|f frames IH]; intros t rest st Ht Hopen Hroom.
    - destruct t; try discriminate; simpl; eexists _, _;
        (split; [reflexivity|]); split; try done; simpl; by rewrite app_nil_r.
    - simpl. unfold channel.send. rewrite Hopen.
      unfold channel.takes in Hroom.
      destruct (channel.room (outputChan st)) as [[|n]|] eqn:Hr; simpl in Hroom.
      + lia.
      + edestruct (IH t rest) as (o & st' & Hrun & Ho & Hs); [done| | |].
        3:{ eexists _, _. split; [exact Hrun|]. split; [done|].
            rewrite Hs. simpl. by rewrite <- app_assoc. }
        * done.
        * unfold channel.takes. simpl. lia.
      + edestruct (IH t rest) as (o & st' & Hrun & Ho & Hs); [done| | |].
        3:{ eexists _, _. split; [exact Hrun|]. split; [done|].
            rewrite Hs. simpl. by rewrite <- app_assoc. }
        * done.
        * by unfold channel.takes.
Qed.

End ReceiverFacts.

(** C4.  After a successful [StartProcess] on a channel that is open and was
    never closed, the receiver goroutine, whenever it is not blocked for
    ever, has returned with [outputChan] closed by exactly one [close], so
    that a consumer ranging over the channel comes to an end; and it is not
    blocked on any stream that, after frames the consumer takes, answers
    end-of-stream, a receive error or a panic: the frames are then all
    forwarded in order. *)
Theorem StartProcess_closes_outputChan_once
    (stream : remote_process_client.StartStream) (ctx : context.t)
    (processID : string) (command : list string) (env : gmap string string)
    (workingDir : string) (ch : channel.t pb.ProcessOutput.t) :
  let r := remote_process_client.StartProcess stream ctx processID command env workingDir ch in
  remote_process_client.startErr r = None ->
  channel.closed ch = false ->
  channel.closeCalls ch = 0 ->
  exists e st,
    remote_process_client.goroutine r = Some (e, st) /\
    (e <> remote_process_client.Blocked ->
       e = remote_process_client.Exited /\
       channel.closed (remote_process_client.outputChan st) = true /\
       channel.closeCalls (remote_process_client.outputChan st) = 1 /\
       channel.range (remote_process_client.outputChan st)
         = Some (channel.sent (remote_process_client.outputChan st))) /\
    (forall frames t rest,
       remote_process_client.recvs stream
         = (remote_process_client.RecvFrame <$> frames) ++ t :: rest ->
       remote_process_client.endsStream t = true ->
       channel.takes (length frames) ch ->
       e = remote_process_client.Exited /\
       channel.sent (remote_process_client.outputChan st) = channel.sent ch ++ frames).
Proof.
  intros r Herr Hopen Hcalls. subst r.
  unfold remote_process_client.StartProcess in *.
  destruct (remote_process_client.openErr stream); [discriminate|].
  destruct (remote_process_client.sendErr stream); [discriminate|].
  destruct (remote_process_client.closeSendErr stream); [discriminate|].
  simpl. unfold remote_process_client.receiver.
  set (st0 := {| remote_process_client.outputChan := ch;
                 remote_process_client.logs := [] |}).
  destruct (remote_process_client.receiveLoop
              (remote_process_client.recvs stream) st0) as [o st1] eqn:Hloop.
  pose proof (receiveLoop_keeps_open _ st0 _ _ Hopen Hloop) as [Hopen1 Hcalls1].
  simpl in Hcalls1. rewrite Hcalls in Hcalls1.
  assert (Hdef : forall o', o' <> remote_process_client.Stuck ->
            exists st2, remote_process_client.receiveDeferred o' st1
                        = (remote_process_client.Exited, st2) /\
              channel.closed (remote_process_client.outputChan st2) = true /\
              channel.closeCalls (remote_process_client.outputChan st2) = 1 /\
              channel.sent (remote_process_client.outputChan st2)
                = channel.sent (remote_process_client.outputChan st1)).
  { intros o' Ho'. destruct o' as [|v|]; [| |done];
      unfold remote_process_client.receiveDeferred, channel.close; simpl;
      rewrite Hopen1, Hcalls1; eexists; (split; [reflexivity|]); by simpl. }
  destruct o as [|v|].
  - destruct (Hdef remote_process_client.Returned) as (st2 & -> & Hc & Hn & Hs); [done|].
    eexists _, _. split; [reflexivity|]. split.
    + intros _. unfold channel.range. by rewrite Hc.
    + intros frames t rest Hscript Ht Hroom.
      destruct (receiveLoop_forwards frames t rest st0 Ht Hopen Hroom)
        as (o' & st' & Hrun & _ & Hsent).
      rewrite <- Hscript, Hloop in Hrun. inversion Hrun; subst.
      split; [done|]. by rewrite Hs, Hsent.
  - destruct (Hdef (remote_process_client.Panicking v)) as (st2 & -> & Hc & Hn & Hs); [done|].
    eexists _, _. split; [reflexivity|]. split.
    + intros _. unfold channel.range. by rewrite Hc.
    + intros frames t rest Hscript Ht Hroom.
      destruct (receiveLoop_forwards frames t rest st0 Ht Hopen Hroom)
        as (o' & st' & Hrun & _ & Hsent).
      rewrite <- Hscript, Hloop in Hrun. inversion Hrun; subst.
      split; [done|]. by rewrite Hs, Hsent.
  - simpl. eexists _, _. split; [reflexivity|]. split; [done|].
    intros frames t rest Hscript Ht Hroom.
    destruct (receiveLoop_forwards frames t rest st0 Ht Hopen Hroom)
      as (o' & st' & Hrun & Ho' & _).
    rewrite <- Hscript, Hloop in Hrun. by inversion Hrun; subst.
Qed.

(** Witness of C4: two frames, then a panic in [Recv]. *)
Lemma StartProcess_closes_outputChan_once_witness :
  exists e st,
    remote_process_client.goroutine
      (remote_process_client.StartProcess doubles.faultyStart context.Background
         "p1" ["echo"; "hi"] ∅ "/tmp" (channel.make None)) = Some (e, st) /\
    e = remote_process_client.Exited /\
    channel.closeCalls (remote_process_client.outputChan st) = 1 /\
    channel.sent (remote_process_client.outputChan st)
      = [pb.ProcessOutput.mk "p1" "hello" false; pb.ProcessOutput.mk "p1" "world" false].
Proof.
  destruct (StartProcess_closes_outputChan_once doubles.faultyStart
              context.Background "p1" ["echo"; "hi"] ∅ "/tmp" (channel.make None)
              eq_refl eq_refl eq_refl) as (e & st & Hrun & Hexit & Hpaths).
  exists e, st. split; [exact Hrun|].
  destruct (Hpaths [pb.ProcessOutput.mk "p1" "hello" false;
                    pb.ProcessOutput.mk "p1" "world" false]
                   (remote_process_client.RecvPanic "runtime error: invalid memory address")
                   [] eq_refl eq_refl I) as [He Hsent].
  split; [exact He|]. split; [|exact Hsent].
  apply Hexit. rewrite He. discriminate.
Defined.

(** C5.  [StopProcess], called at instant [now], makes one call of the
    stub: with the request for the given process and under a context whose
    deadline is [now + 5s] when the caller's context has none, and the
    earlier of [now + 5s] and the caller's deadline when it has one.  It
    returns when this call returns, with its answer: the server's verdict, or
    the error wrapped.  So, whatever the caller's context, with a stub that
    returns at most [slack] after the context it is given has expired,
    [StopProcess] returns no later than [now + 5s + slack]. *)
Theorem StopProcess_returns_within_five_seconds
    (client_StopProcess :
       context.t -> Z -> pb.ProcessStopRequest.t ->
       option Z * (pb.ProcessStopResponse.t + string))
    (ctx : context.t) (now : Z) (processID : string) :
  let run := remote_process_client.StopProcess client_StopProcess ctx now processID in
  exists d,
    (d = match context.deadline ctx with
         | Some p => Z.min p (now + 5000000000)
         | None => now + 5000000000
         end)%Z /\
    (d <= now + 5000000000)%Z /\
    let answer := client_StopProcess (context.mk (Some d)) now
                    (pb.ProcessStopRequest.mk processID) in
    run.1 = answer.1 /\
    run.2 = match answer.2 with
            | inl response =>
                (pb.ProcessStopResponse.Success response,
                 pb.ProcessStopResponse.Message response, None)
            | inr err => (false, "", Some ("error stopping process: " +:+ err))
            end /\
    forall slack : Z,
      (forall c t req e,
         context.deadline c = Some e ->
         exists back, (client_StopProcess c t req).1 = Some back /\
                      (back <= Z.max t e + slack)%Z) ->
      exists back, run.1 = Some back /\ (back <= now + 5000000000 + slack)%Z.
Proof.
  intros run. subst run. unfold remote_process_client.StopProcess.
  set (d := match context.deadline ctx with
            | Some p => Z.min p (now + 5000000000)
            | None => (now + 5000000000)%Z
            end).
  assert (Hctx : context.WithTimeout ctx (5 * context.Second) now = context.mk (Some d)).
  { unfold context.WithTimeout, context.Second, d.
    by destruct (context.deadline ctx). }
  rewrite Hctx. exists d. split; [done|].
  assert (Hle : (d <= now + 5000000000)%Z).
  { unfold d. destruct (context.deadline ctx); lia. }
  split; [done|]. cbv zeta.
  destruct (client_StopProcess (context.mk (Some d)) now
              (pb.ProcessStopRequest.mk processID)) as [t [response|err]] eqn:Hcall;
    simpl; (split; [done|]); (split; [done|]); intros slack Hstub;
    destruct (Hstub (context.mk (Some d)) now (pb.ProcessStopRequest.mk processID) d eq_refl)
      as (back & Hback & Hbound);
    rewrite Hcall in Hback; simpl in Hback; exists back; (split; [done|]); lia.
Qed.

(** Witness of C5: a caller without deadline, a server that never answers. *)
Lemma StopProcess_returns_within_five_seconds_witness :
  exists back,
    (remote_process_client.StopProcess doubles.stalledStop context.Background 100 "p1").1
      = Some back /\
    (back <= 100 + 5000000000 + 0)%Z.
Proof.
  destruct (StopProcess_returns_within_five_seconds doubles.stalledStop
              context.Background 100 "p1") as (d & _ & _ & _ & _ & Hbound).
  apply (Hbound 0%Z).
  intros c t req e He. unfold doubles.stalledStop. rewrite He.
  exists (Z.max t e). split; [reflexivity | lia].
Defined.

(** C6, as stated, fails: a receive error met while the context reports
    [Canceled] ends the loop with no record put forward, even with a consumer
    waiting on [healthChan]. *)
Lemma MonitorHealth_silent_when_canceled :
  remote_process_client.monitor
    (remote_process_client.MonitorHealth
       (doubles.brokenHealth context.Canceled true true) context.Background "p1" 5)
  = Some (remote_process_client.Exited,
          {| remote_process_client.healthChan := [];
             remote_process_client.offered := [];
             remote_process_client.hlogs := [] |}).
Proof. reflexivity. Qed.

(** C6, amended.  A turn whose [Recv] fails (not with end-of-stream) while
    [ctx.Err()] is not [Canceled] puts forward exactly one record, with
    [IsRunning = false] and the status "Error receiving response: <error>",
    in a [select] against [ctx.Done()]; the record is delivered when the send
    case fires; the loop is then left without another [Recv], and it is
    blocked only if neither the consumer nor the cancellation ever comes.
    While [ctx.Err()] is [Canceled] the loop is left at once and nothing is
    put forward. *)
Theorem MonitorHealth_receive_error
    (processID err : string) (t : remote_process_client.Turn)
    (rest : list remote_process_client.Turn) (st : remote_process_client.Monitor) :
  remote_process_client.doneAtTop t = false ->
  remote_process_client.recv t = remote_process_client.HealthError err ->
  let run := remote_process_client.monitorLoop processID (t :: rest) st in
  let rec := remote_process_client.degraded processID err in
  (remote_process_client.ctxErr t = context.Canceled -> run = (remote_process_client.Returned, st)) /\
  (remote_process_client.ctxErr t <> context.Canceled ->
     pb.HealthStatus.ProcessId rec = processID /\
     pb.HealthStatus.IsRunning rec = false /\
     pb.HealthStatus.Status rec = "Error receiving response: " +:+ err /\
     remote_process_client.offered run.2 = remote_process_client.offered st ++ [rec] /\
     remote_process_client.healthChan run.2 =
       match remote_process_client.selectSendOrDone t with
       | remote_process_client.SendFired => remote_process_client.healthChan st ++ [rec]
       | _ => remote_process_client.healthChan st
       end /\
     run.1 = match remote_process_client.selectSendOrDone t with
             | remote_process_client.SelectBlocks => remote_process_client.Stuck
             | _ => remote_process_client.Returned
             end /\
     (remote_process_client.consumerTakes t = true \/
      remote_process_client.cancelArrives t = true -> run.1 = remote_process_client.Returned)).
Proof.
  intros Htop Hrecv run rec. subst run rec. simpl. rewrite Htop, Hrecv. split.
  - by intros ->.
  - intros Hne.
    assert (context.Err_eqb (remote_process_client.ctxErr t) context.Canceled = false) as ->.
    { by destruct (remote_process_client.ctxErr t). }
    unfold remote_process_client.selectSendOrDone.
    destruct (remote_process_client.consumerTakes t),
             (remote_process_client.cancelArrives t),
             (remote_process_client.pickSend t); simpl; intuition discriminate.
Qed.

(** Witness of C6: the context reports [DeadlineExceeded], the consumer is
    waiting: the degraded record reaches [healthChan]. *)
Lemma MonitorHealth_receive_error_witness :
  let run := remote_process_client.monitorLoop "p1"
               [doubles.failingTurn context.DeadlineExceeded true false]
               {| remote_process_client.healthChan := [];
                  remote_process_client.offered := [];
                  remote_process_client.hlogs := [] |} in
  run.1 = remote_process_client.Returned /\
  remote_process_client.healthChan run.2 =
    [pb.HealthStatus.mk "p1" false
       "Error receiving response: rpc error: code = Unavailable desc = transport is closing"
       false].
Proof.
  destruct (MonitorHealth_receive_error "p1"
              "rpc error: code = Unavailable desc = transport is closing"
              (doubles.failingTurn context.DeadlineExceeded true false) []
              {| remote_process_client.healthChan := [];
                 remote_process_client.offered := [];
                 remote_process_client.hlogs := [] |} eq_refl eq_refl)
    as [_ Hsend].
  destruct Hsend as (_ & _ & _ & _ & Hchan & _ & Hret); [discriminate|].
  split; [apply Hret; by left | exact Hchan].
Defined.

(** ** Properties of [websockets] *)

Section ConnFacts.

Import websockets.

Lemma tried_app (c c' : Conn) fs :
  attempts c' = attempts c ++ fs -> tried c' = tried c ++ fs.*1.
Proof. unfold tried. intros ->. by rewrite fmap_app. Qed.

Lemma wire_app (c c' : Conn) fs :
  attempts c' = attempts c ++ fs ->
  wire c' = wire c ++ (filter (fun a => a.2 = true) fs).*1.
Proof. unfold wire. intros ->. by rewrite filter_app, fmap_app. Qed.

Lemma withOutcome_fst ok fs : (withOutcome ok fs).*1 = fs.
Proof.
  unfold withOutcome.
  induction fs as [|f fs IH]; [done|]. rewrite !fmap_cons. simpl. by f_equal.
Qed.

Lemma withOutcome_app ok fs gs :
  withOutcome ok (fs ++ gs) = withOutcome ok fs ++ withOutcome ok gs.
Proof. unfold withOutcome. by rewrite fmap_app. Qed.

Lemma withOutcome_length ok fs : length (withOutcome ok fs) = length fs.
Proof. unfold withOutcome. by rewrite length_fmap. Qed.

Lemma withOutcome_wire ok fs :
  (filter (fun a : Frame * bool => a.2 = true) (withOutcome ok fs)).*1
  = if ok then fs else [].
Proof.
  induction fs as [|f fs IH]; [by destruct ok|].
  unfold withOutcome in *. rewrite fmap_cons, filter_cons. simpl.
  destruct ok; simpl.
  - f_equal. exact IH.
  - exact IH.
Qed.

Lemma onlyWrote_refl (w : World) : onlyWrote w w [].
Proof. unfold onlyWrote. rewrite app_nil_r. simpl. by rewrite drop_0. Qed.

Lemma onlyWrote_trans (w1 w2 w3 : World) fs gs :
  onlyWrote w1 w2 fs -> onlyWrote w2 w3 gs -> onlyWrote w1 w3 (fs ++ gs).
Proof.
  unfold onlyWrote. intros (Ha & Ho & Hc & Hk & Hd & Hn & Ht) (Ha' & Ho' & Hc' & Hk' & Hd' & Hn' & Ht').
  rewrite Ha', Ha, Ho', Ho, Hc', Hc, Hk', Hk, Hd', Hd, Hn', Hn, Ht', Ht.
  rewrite app_assoc, length_app, drop_drop. done.
Qed.

End ConnFacts.

Section HandlerFacts.

Import websockets.
Context `{D : domain.Package} `{L : Libraries}.
Variable h : WSHandler.

Lemma connWrite_wrote f (w : World) :
  exists w', connWrite f w = (Some (nextWriteOk (conn w)), w') /\
             onlyWrote w w' [(f, nextWriteOk (conn w))].
Proof.
  eexists. split; [reflexivity|]. unfold onlyWrote, nextWriteOk. simpl.
  destruct (outcomes (conn w)); simpl; by rewrite ?drop_0.
Qed.

Lemma sendJSON_wrote action data (w : World) :
  exists ok w', sendJSON action data w = (Some ok, w') /\
    ok = match json_Marshal data with
         | Some _ => nextWriteOk (conn w)
         | None => false
         end /\
    onlyWrote w w' (withOutcome (nextWriteOk (conn w)) (envelopes action data)).
Proof.
  unfold sendJSON, envelopes. destruct (json_Marshal data) as [raw|].
  - destruct (connWrite_wrote (EnvelopeFrame {| Action := action; Payload := raw |}) w)
      as (w' & Hrun & Hw). by eexists _, _.
  - eexists _, _. split; [reflexivity|]. split; [done|]. apply onlyWrote_refl.
Qed.

Lemma sendError_wrote code message (w : World) :
  exists w', sendError code message w = (Some tt, w') /\
    onlyWrote w w' (withOutcome (nextWriteOk (conn w))
                      (envelopes "task_error" (DataResponse (errorResponse code message)))).
Proof.
  unfold sendError, bind.
  destruct (sendJSON_wrote "task_error" (DataResponse (errorResponse code message)) w)
    as (ok & w' & Hrun & _ & Hw).
  unfold errorResponse in Hrun. rewrite Hrun. by eexists.
Qed.

(** Each frame written for an output record is a [task_output] envelope. *)
Lemma outputFrames_task_output taskID (outs : list domain.ProcessOutput) f :
  f ∈ outs ≫= outputFrames taskID ->
  exists raw, f = EnvelopeFrame {| Action := "task_output"; Payload := raw |}.
Proof.
  intros Hin. apply list_elem_of_bind in Hin as (o & Hf & _).
  unfold outputFrames, envelopes in Hf.
  destruct (json_Marshal _) as [raw|]; [|by apply elem_of_nil in Hf].
  apply list_elem_of_singleton in Hf. by exists raw.
Qed.

(** The relay of [handleCreateTask], on each of its exits: the records of a
    prefix of the channel were written, in order and with success; a failed
    write is the last one tried. *)
Lemma relayOutputs_wrote taskID pending closes : forall w : World,
  exists delivered rest e w',
    relayOutputs taskID pending closes w = (e, w') /\
    pending = delivered ++ rest /\
    match e with
    | Some ChannelClosed =>
        rest = [] /\ closes = true /\
        onlyWrote w w' (withOutcome true (delivered ≫= outputFrames taskID))
    | None =>
        rest = [] /\ closes = false /\
        onlyWrote w w' (withOutcome true (delivered ≫= outputFrames taskID))
    | Some MarshalFailed =>
        (exists o post, rest = o :: post /\
           json_Marshal (DataResponse (outputResponse taskID o)) = None) /\
        onlyWrote w w' (withOutcome true (delivered ≫= outputFrames taskID))
    | Some WriteFailed =>
        exists o post, rest = o :: post /\
          onlyWrote w w' (withOutcome true (delivered ≫= outputFrames taskID)
                          ++ withOutcome false (outputFrames taskID o))
    | Some ContextDone => False
    end.
Proof.
  induction pending as [|output pending IH]; intros w; simpl.
  - exists [], []. destruct closes; eexists _, _; (split; [reflexivity|]);
      (split; [done|]); (split; [done|]); (split; [done|]); apply onlyWrote_refl.
  - destruct (json_Marshal (DataResponse (outputResponse taskID output))) as [raw|] eqn:Hm.
    + unfold bind.
      destruct (connWrite_wrote
                  (EnvelopeFrame {| Action := "task_output"; Payload := raw |}) w)
        as (w1 & -> & Hw1).
      assert (Hframes : outputFrames taskID output
                = [EnvelopeFrame {| Action := "task_output"; Payload := raw |}]).
      { unfold outputFrames, envelopes. by rewrite Hm. }
      destruct (nextWriteOk (conn w)).
      * destruct (IH w1) as (delivered & rest & e & w' & Hrun & -> & He).
        exists (output :: delivered), rest, e, w'. split; [exact Hrun|]. split; [done|].
        rewrite bind_cons, withOutcome_app, Hframes.
        change (withOutcome true [EnvelopeFrame {| Action := "task_output"; Payload := raw |}])
          with [(EnvelopeFrame {| Action := "task_output"; Payload := raw |}, true)].
        destruct e as [[| | |]|].
        -- destruct He as (? & ? & ?). split; [done|]. split; [done|].
           by eapply onlyWrote_trans.
        -- destruct He as (? & ?). split; [done|]. by eapply onlyWrote_trans.
        -- destruct He as (o & post & ? & ?). exists o, post. split; [done|].
           rewrite <- app_assoc. by eapply onlyWrote_trans.
        -- done.
        -- destruct He as (? & ? & ?). split; [done|]. split; [done|].
           by eapply onlyWrote_trans.
      * exists [], (output :: pending). eexists _, _. split; [reflexivity|].
        split; [done|]. exists output, pending. split; [done|].
        simpl. by rewrite Hframes.
    + exists [], (output :: pending). eexists _, _. split; [reflexivity|].
      split; [done|]. split; [by exists output, pending|]. apply onlyWrote_refl.
Qed.

(** The relay of [handleCreateTask] runs through records that can be
    serialised while the writes succeed. *)
Lemma relayOutputs_through taskID pre : forall rest closes (w : World),
  Forall (fun o => json_Marshal (DataResponse (outputResponse taskID o)) <> None) pre ->
  Forall (fun b => b = true) (take (length pre) (outcomes (conn w))) ->
  exists w1,
    onlyWrote w w1 (withOutcome true (pre ≫= outputFrames taskID)) /\
    relayOutputs taskID (pre ++ rest) closes w = relayOutputs taskID rest closes w1.
Proof.
  induction pre as [|output pre IH]; intros rest closes w Hm Hok.
  - exists w. split; [apply onlyWrote_refl | done].
  - apply Forall_cons in Hm as [Hm Hms].
    rewrite <- app_comm_cons. cbn [relayOutputs].
    destruct (json_Marshal (DataResponse (outputResponse taskID output))) as [raw|] eqn:Hraw;
      [|done].
    unfold bind.
    destruct (connWrite_wrote
                (EnvelopeFrame {| Action := "task_output"; Payload := raw |}) w)
      as (w1 & -> & Hw1).
    assert (nextWriteOk (conn w) = true) as Hnext.
    { unfold nextWriteOk. destruct (outcomes (conn w)) as [|b bs]; [done|].
      simpl in Hok. by apply Forall_cons in Hok as [-> _]. }
    rewrite Hnext in *.
    destruct (IH rest closes w1 Hms) as (w2 & Hw2 & Hrun).
    { destruct Hw1 as (_ & -> & _). simpl.
      destruct (outcomes (conn w)) as [|b bs]; simpl in *.
      - rewrite take_nil. constructor.
      - rewrite drop_0. by apply Forall_cons in Hok as [_ ?]. }
    exists w2. split; [|exact Hrun].
    rewrite bind_cons, withOutcome_app.
    eapply onlyWrote_trans; [|exact Hw2].
    unfold outputFrames, envelopes. by rewrite Hraw.
Qed.

Lemma createTaskFromRequest_run ctx req (w : World) :
  exists task taskCtx w0,
    createTaskFromRequest ctx req w = (Some (task, taskCtx), w0) /\
    conn w0 = conn w /\ calls w0 = calls w /\
    domain.ID task = uuid_New (drawn w) /\ domain.Name task = Name req.
Proof.
  unfold createTaskFromRequest, timeNow, uuidNew, bind, ret.
  eexists _, _, _. split; [reflexivity|]. by simpl.
Qed.

Lemma worker_AddTask_run taskCtx task (w : World) :
  exists w1,
    worker_AddTask h taskCtx task w = (Some (AddTask (worker h) (calls w) taskCtx task), w1) /\
    conn w1 = conn w /\ calls w1 = calls w ++ [CallAddTask taskCtx task].
Proof. eexists. split; [reflexivity|]. by simpl. Qed.

(** What [sendTaskCompletion] does: one call of [GetTask], then the
    completion frames. *)
Lemma sendTaskCompletion_wrote ctx taskID (w : World) :
  exists w',
    sendTaskCompletion h ctx taskID w = (Some tt, w') /\
    calls w' = calls w ++ [CallGetTask taskID] /\
    connClosed (conn w') = connClosed (conn w) /\
    attempts (conn w') =
      attempts (conn w) ++ withOutcome (nextWriteOk (conn w)) (completionFrames h taskID w).
Proof.
  unfold sendTaskCompletion, completionFrames, worker_GetTask, history, record, bind, ret.
  simpl. destruct (GetTask (worker h) (calls w) taskID) as [task|err].
  - unfold timeNow. simpl.
    match goal with
    | |- context [sendJSON ?a ?d ?w0] =>
        destruct (sendJSON_wrote a d w0) as (ok & w' & -> & _ & Hw)
    end.
    destruct Hw as (Ha & _ & Hc & Hk & _). simpl in *. by exists w'.
  - match goal with
    | |- context [sendError ?c ?m ?w0] =>
        destruct (sendError_wrote c m w0) as (w' & -> & Hw)
    end.
    destruct Hw as (Ha & _ & Hc & Hk & _). simpl in *. by exists w'.
Qed.

Lemma pollDone_run (w : World) :
  exists done w', pollDone w = (Some done, w') /\
    conn w' = conn w /\ calls w' = calls w.
Proof. eexists _, _. split; [reflexivity|]. by simpl. Qed.

Lemma worker_StopTask_run id (w : World) :
  exists r w', worker_StopTask h id w = (Some r, w') /\
    conn w' = conn w /\ calls w' = calls w ++ [CallStopTask id].
Proof. eexists _, _. split; [reflexivity|]. by simpl. Qed.

Lemma successes_app fs gs : successes (fs ++ gs) = successes fs ++ successes gs.
Proof. unfold successes. by rewrite filter_app, fmap_app. Qed.

Lemma outputsOf_app fs gs : outputsOf (fs ++ gs) = outputsOf fs ++ outputsOf gs.
Proof. unfold outputsOf. by rewrite filter_app. Qed.

Lemma outputsOf_ping b : outputsOf (successes [(PingFrame, b)]) = [].
Proof. by destruct b. Qed.

(** The loop of [streamTaskOutput], on each of its exits: between the pings,
    the records of a prefix of the channel reached the client, in order. *)
Lemma streamOutputs_wrote taskID pending closes : forall w : World,
  exists written e w' fs,
    streamOutputs h taskID pending closes w = (e, w') /\
    written `prefix_of` pending /\
    attempts (conn w') = attempts (conn w) ++ fs /\
    connClosed (conn w') = connClosed (conn w) /\
    outputsOf (successes fs) = written ≫= outputFrames taskID /\
    Forall (fun f => isTaskOutput f = true \/ f = PingFrame) fs.*1 /\
    (e = None -> closes = false) /\
    (e = Some ChannelClosed -> written = pending) /\
    calls w' = calls w ++ (if e is Some ContextDone then [CallStopTask taskID] else []).
Proof.
  induction pending as [|output pending IH]; intros w.
  - exists []. destruct closes; eexists _, _, []; simpl;
      (split; [reflexivity|]); rewrite !app_nil_r; split_and!; done.
  - cbn [streamOutputs]. unfold bind at 1.
    destruct (sendJSON_wrote "task_output"
                (DataResponse (outputResponse taskID output)) w)
      as (ok & w1 & -> & Hok & Hw1).
    destruct Hw1 as (Ha1 & _ & Hc1 & Hk1 & _).
    unfold envelopes in Ha1.
    destruct (json_Marshal (DataResponse (outputResponse taskID output)))
      as [raw|] eqn:Hraw; subst ok.
    2:{ exists [], (Some WriteFailed), w1, []. simpl in *.
        split; [reflexivity|]. split; [apply prefix_nil|].
        rewrite Hk1, Hc1, Ha1, !app_nil_r. split_and!; done. }
    assert (Hframes : outputFrames taskID output
              = [EnvelopeFrame {| Action := "task_output"; Payload := raw |}]).
    { unfold outputFrames, envelopes. by rewrite Hraw. }
    destruct (nextWriteOk (conn w)); simpl in Ha1.
    2:{ exists [], (Some WriteFailed), w1,
          [(EnvelopeFrame {| Action := "task_output"; Payload := raw |}, false)].
        simpl. split; [reflexivity|]. split; [apply prefix_nil|].
        rewrite Hk1, Hc1, Ha1, app_nil_r. split_and!; try done.
        constructor; [by left | constructor]. }
    cbn [negb]. unfold bind at 1.
    destruct (pollDone_run w1) as (done & w2 & -> & Hconn2 & Hk2).
    destruct done.
    + unfold bind at 1.
      destruct (worker_StopTask_run taskID w2) as (r & w3 & -> & Hconn3 & Hk3).
      exists [output], (Some ContextDone), w3,
        [(EnvelopeFrame {| Action := "task_output"; Payload := raw |}, true)].
      split; [reflexivity|]. split; [by apply prefix_cons, prefix_nil|].
      rewrite Hconn3, Hconn2, Hk3, Hk2, Hk1, Ha1, Hc1.
      split_and!; try done.
      * rewrite bind_cons, Hframes. done.
      * constructor; [by left | constructor].
    + unfold bind at 1.
      destruct (connWrite_wrote PingFrame w2) as (w3 & -> & Hw3).
      destruct Hw3 as (Ha3 & _ & Hc3 & Hk3 & _).
      destruct (IH w3) as (written & e & w' & fs & Hrun & Hpre & Ha & Hc & Hout
                           & Hall & Hnone & Hclosed & Hk).
      exists (output :: written), e, w',
        ([(EnvelopeFrame {| Action := "task_output"; Payload := raw |}, true)]
           ++ [(PingFrame, nextWriteOk (conn w2))] ++ fs).
      split; [exact Hrun|]. split; [by apply prefix_cons|].
      rewrite Ha, Ha3, Hc, Hc3, Hk, Hk3, Hconn2, Hk2, Hk1, Ha1, Hc1.
      split; [by rewrite <- !app_assoc|]. split; [done|].
      split.
      { rewrite !successes_app, !outputsOf_app, outputsOf_ping, Hout, bind_cons, Hframes.
        done. }
      split.
      { rewrite !fmap_app. apply Forall_app. split; [constructor; [by left|constructor]|].
        apply Forall_app. split; [constructor; [by right|constructor]|done]. }
      split; [done|]. split; [|done].
      intros He. by rewrite (Hclosed He).
Qed.

(** Handling a message that meets a local error comes down to one
    [sendError], on the connection as it was. *)
Lemma dispatch_local_error ctx msg (w : World) code message :
  LocalError h ctx msg w code message ->
  exists w0, conn w0 = conn w /\
    dispatch h ctx msg w = sendError code message w0.
Proof.
  intros Herr. unfold dispatch.
  destruct Herr as [Ha Hd|Ha Hd|req Ha Hd Hv|req task taskCtx w1 err Ha Hd Hn Hi Hc Hr
                    |id err Ha Hd Hr|err Ha Hr|Hc Hs Hl].
  - rewrite Ha. simpl. unfold handleCreateTask. rewrite Hd. by exists w.
  - rewrite Ha. simpl. unfold handleStopTask. rewrite Hd. by exists w.
  - rewrite Ha. simpl. unfold handleCreateTask. rewrite Hd.
    assert (String.eqb (Name req) "" || String.eqb (Image req) "" = true) as ->.
    { destruct Hv as [-> | ->]; [done|]. by rewrite orb_true_r. }
    by exists w.
  - rewrite Ha. simpl. unfold handleCreateTask. rewrite Hd.
    apply String.eqb_neq in Hn, Hi. rewrite Hn, Hi. simpl.
    unfold bind at 1. rewrite Hc.
    unfold bind at 1.
    destruct (worker_AddTask_run taskCtx task w1) as (w2 & -> & Hconn & _).
    rewrite Hr. exists w2. split; [|done].
    rewrite Hconn. by destruct (createTaskFromRequest_run ctx req w)
      as (? & ? & ? & Hrun & ? & _); rewrite Hc in Hrun; inversion Hrun; subst.
  - rewrite Ha. simpl. unfold handleStopTask. rewrite Hd.
    unfold bind at 1, worker_StopTask, history, record, bind, ret. simpl.
    rewrite Hr. eexists. split; [|reflexivity]. done.
  - rewrite Ha. simpl. unfold handleListTasks.
    unfold bind at 1, worker_GetTasks, history, record, bind, ret. simpl.
    rewrite Hr. eexists. split; [|reflexivity]. done.
  - apply String.eqb_neq in Hc, Hs, Hl. rewrite Hc, Hs, Hl. by exists w.
Qed.

End HandlerFacts.

Section CreateTaskFacts.

Import websockets.
Local Open Scope go_scope.
Context `{D : domain.Package} `{L : Libraries}.
Variable h : WSHandler.

(** What ends [handleCreateTask] once the relay has run to the end of the
    channel. *)
Lemma finish_wrote (w : World) :
  exists w',
    (connWrite doneMsg;;;
     connWrite (CloseFrame CloseNormalClosure "Process finished");;;
     ret tt) w = (Some tt, w') /\
    exists b1 b2,
      onlyWrote w w' [(doneMsg, b1); (CloseFrame CloseNormalClosure "Process finished", b2)] /\
      b1 = nextWriteOk (conn w) /\
      (Forall (fun b => b = true) (take 2 (outcomes (conn w))) -> b1 = true /\ b2 = true).
Proof.
  unfold bind at 1.
  destruct (connWrite_wrote doneMsg w) as (w1 & -> & Hw1).
  unfold bind at 1.
  destruct (connWrite_wrote (CloseFrame CloseNormalClosure "Process finished") w1)
    as (w2 & -> & Hw2).
  exists w2. split; [reflexivity|].
  exists (nextWriteOk (conn w)), (nextWriteOk (conn w1)).
  split; [exact (onlyWrote_trans _ _ _ _ _ Hw1 Hw2)|]. split; [done|].
  destruct Hw1 as (_ & Ho & _). unfold nextWriteOk. rewrite Ho.
  destruct (outcomes (conn w)) as [|b [|b' bs]]; simpl; intros Hall; try done.
  - by apply Forall_cons in Hall as [-> _].
  - apply Forall_cons in Hall as [-> Hall]. by apply Forall_cons in Hall as [-> _].
Qed.

(** A valid request the executor accepts: [handleCreateTask] is the relay of
    the channel, followed by the final messages when the relay ran to the end
    of the channel. *)
Lemma handleCreateTask_started ctx payload req (w w0 : World) task taskCtx outputChan :
  json_Unmarshal_TaskRequest payload = Some req ->
  Name req <> "" -> Image req <> "" ->
  createTaskFromRequest ctx req w = (Some (task, taskCtx), w0) ->
  AddTask (worker h) (calls w0) taskCtx task = inl outputChan ->
  let w1 := (worker_AddTask h taskCtx task w0).2 in
  conn w1 = conn w /\
  calls w1 = calls w ++ [CallAddTask taskCtx task] /\
  handleCreateTask h ctx payload w =
    match relayOutputs (domain.ID task) (channel.sent outputChan)
                       (channel.closed outputChan) w1 with
    | (Some ChannelClosed, w2) =>
        (connWrite doneMsg;;;
         connWrite (CloseFrame CloseNormalClosure "Process finished");;;
         ret tt) w2
    | (Some _, w2) => (Some tt, w2)
    | (None, w2) => (None, w2)
    end.
Proof.
  intros Hd Hn Hi Hc Hr w1.
  destruct (createTaskFromRequest_run ctx req w)
    as (task' & taskCtx' & w0' & Hrun & Hconn0 & Hcalls0 & _).
  rewrite Hc in Hrun. injection Hrun as <- <- <-.
  destruct (worker_AddTask_run h taskCtx task w0) as (w1' & Hadd & Hconn1 & Hcalls1).
  assert (w1 = w1') as -> by (unfold w1; by rewrite Hadd).
  split; [by rewrite Hconn1|]. split; [by rewrite Hcalls1, Hcalls0|].
  unfold handleCreateTask. rewrite Hd.
  apply String.eqb_neq in Hn, Hi. rewrite Hn, Hi. simpl.
  unfold bind at 1. rewrite Hc.
  unfold bind at 1. rewrite Hadd, Hr.
  unfold bind at 1.
  destruct (relayOutputs _ _ _ w1') as [[[| | |]|] w2]; done.
Qed.

End CreateTaskFacts.

Section HandlerClaims.

Import websockets.
Local Open Scope go_scope.
Context `{D : domain.Package} `{L : Libraries}.
Variable h : WSHandler.

(** C7.  A [create_task] message whose payload decodes to a request with an
    empty name or an empty image: [handleCreateTask] returns after one write,
    that of a [task_error] envelope with the code [validation_error]; no call
    is made on the executor, the connection is not closed, and the read loop
    goes on with the next message. *)
Theorem handleCreateTask_validation_error
    (ctx : context.t) (payload : string) (req : TaskRequest)
    (rest : list WSMessage) (w : World) :
  json_Unmarshal_TaskRequest payload = Some req ->
  Name req = "" \/ Image req = "" ->
  exists resp w',
    handleCreateTask h ctx payload w = (Some tt, w') /\
    IsError resp = true /\ ExitCode resp = "validation_error" /\
    tried (conn w') = tried (conn w) ++ envelopes "task_error" (DataResponse resp) /\
    wire (conn w') = wire (conn w) ++
      (if nextWriteOk (conn w) then envelopes "task_error" (DataResponse resp) else []) /\
    calls w' = calls w /\
    connClosed (conn w') = connClosed (conn w) /\
    readLoop h ctx ({| Action := "create_task"; Payload := payload |} :: rest) w
      = readLoop h ctx rest w'.
Proof.
  intros Hd Hv.
  assert (Hrun : handleCreateTask h ctx payload w
                 = sendError "validation_error" "Name and Image are required fields" w).
  { unfold handleCreateTask. rewrite Hd.
    destruct Hv as [-> | ->]; [done|]. by rewrite orb_true_r. }
  destruct (sendError_wrote "validation_error" "Name and Image are required fields" w)
    as (w' & Hsend & Ha & _ & Hc & Hk & _).
  exists (errorResponse "validation_error" "Name and Image are required fields"), w'.
  rewrite Hrun, Hsend.
  rewrite (tried_app _ _ _ Ha), (wire_app _ _ _ Ha), withOutcome_fst, withOutcome_wire.
  split_and!; try done.
  cbn [readLoop]. unfold bind at 1, dispatch. simpl. by rewrite Hrun, Hsend.
Qed.

(** C8.  Handling a message that meets one of the local errors
    ([invalid_request], [validation_error], [create_error], [stop_error],
    [list_error], [unknown_action]) returns after one write, that of a
    [task_error] envelope whose payload serialises a response with
    [IsError = true], [ExitCode] the code and [Error] the message; the
    connection is not closed and the read loop goes on.  So it is for a
    message whose action is none of the three known ones, with the code
    [unknown_action]. *)
Theorem local_errors_become_task_error
    (ctx : context.t) (msg : WSMessage) (rest : list WSMessage) (w : World) :
  (forall code message,
     LocalError h ctx msg w code message ->
     exists resp w',
       dispatch h ctx msg w = (Some tt, w') /\
       IsError resp = true /\ ExitCode resp = code /\ Error resp = message /\
       tried (conn w') = tried (conn w) ++ envelopes "task_error" (DataResponse resp) /\
       wire (conn w') = wire (conn w) ++
         (if nextWriteOk (conn w) then envelopes "task_error" (DataResponse resp) else []) /\
       connClosed (conn w') = connClosed (conn w) /\
       readLoop h ctx (msg :: rest) w = readLoop h ctx rest w') /\
  (Action msg <> "create_task" -> Action msg <> "stop_task" ->
   Action msg <> "list_tasks" ->
   LocalError h ctx msg w "unknown_action" "Unsupported action type").
Proof.
  split; [|by constructor].
  intros code message Herr.
  destruct (dispatch_local_error h ctx msg w code message Herr) as (w0 & Hconn & Hrun).
  destruct (sendError_wrote code message w0) as (w' & Hsend & Ha & _ & Hc & _).
  exists (errorResponse code message), w'.
  rewrite Hrun, Hsend, <- Hconn.
  rewrite (tried_app _ _ _ Ha), (wire_app _ _ _ Ha), withOutcome_fst, withOutcome_wire.
  split_and!; try done.
  cbn [readLoop]. unfold bind at 1. by rewrite Hrun, Hsend.
Qed.

(** C10.  In the relay of [handleCreateTask], when the records before [o]
    were serialised and written and [o] cannot be serialised, the handler
    returns at once: what it wrote are the [task_output] envelopes of the
    records before [o] and nothing else, neither for the records after [o],
    nor an error envelope, nor a final message. *)
Theorem handleCreateTask_marshal_failure
    (ctx : context.t) (payload : string) (req : TaskRequest) (w w0 : World)
    (task : domain.Task) (taskCtx : context.t)
    (outputChan : channel.t domain.ProcessOutput)
    (pre : list domain.ProcessOutput) (o : domain.ProcessOutput)
    (post : list domain.ProcessOutput) :
  json_Unmarshal_TaskRequest payload = Some req ->
  Name req <> "" -> Image req <> "" ->
  createTaskFromRequest ctx req w = (Some (task, taskCtx), w0) ->
  AddTask (worker h) (calls w0) taskCtx task = inl outputChan ->
  channel.sent outputChan = pre ++ o :: post ->
  Forall (fun x => json_Marshal (DataResponse (outputResponse (domain.ID task) x)) <> None) pre ->
  Forall (fun b => b = true) (take (length pre) (outcomes (conn w))) ->
  json_Marshal (DataResponse (outputResponse (domain.ID task) o)) = None ->
  exists w',
    handleCreateTask h ctx payload w = (Some tt, w') /\
    tried (conn w') = tried (conn w) ++ (pre ≫= outputFrames (domain.ID task)) /\
    wire (conn w') = wire (conn w) ++ (pre ≫= outputFrames (domain.ID task)) /\
    (forall f, f ∈ pre ≫= outputFrames (domain.ID task) ->
       exists raw, f = EnvelopeFrame {| Action := "task_output"; Payload := raw |}) /\
    connClosed (conn w') = connClosed (conn w).
Proof.
  intros Hd Hn Hi Hc Hr Hsent Hpre Hok Ho.
  destruct (handleCreateTask_started h ctx payload req w w0 task taskCtx outputChan
              Hd Hn Hi Hc Hr) as (Hconn & _ & ->).
  set (w1 := (worker_AddTask h taskCtx task w0).2) in *.
  rewrite Hsent.
  destruct (relayOutputs_through (domain.ID task) pre (o :: post)
              (channel.closed outputChan) w1 Hpre) as (w2 & Hw2 & ->).
  { by rewrite Hconn. }
  cbn [relayOutputs]. rewrite Ho. unfold ret.
  destruct Hw2 as (Ha & _ & Hcl & _). rewrite Hconn in Ha, Hcl.
  exists w2. rewrite (tried_app _ _ _ Ha), (wire_app _ _ _ Ha).
  rewrite withOutcome_fst, withOutcome_wire.
  split_and!; try done. intros f. apply outputFrames_task_output.
Qed.

(** C2 does not hold of the code.  After a relay that ran through a closed
    channel, every record serialised and every write successful, what
    [handleCreateTask] adds on the wire after the [task_output] envelopes is
    the same success message, followed by a close frame, whatever the records
    report and whatever state the executor knows the task to be in. *)
Theorem handleCreateTask_done_message_is_constant
    (ctx : context.t) (payload : string) (req : TaskRequest) (w w0 : World)
    (task : domain.Task) (taskCtx : context.t)
    (outputChan : channel.t domain.ProcessOutput) :
  json_Unmarshal_TaskRequest payload = Some req ->
  Name req <> "" -> Image req <> "" ->
  createTaskFromRequest ctx req w = (Some (task, taskCtx), w0) ->
  AddTask (worker h) (calls w0) taskCtx task = inl outputChan ->
  channel.closed outputChan = true ->
  Forall (fun x => json_Marshal (DataResponse (outputResponse (domain.ID task) x)) <> None)
         (channel.sent outputChan) ->
  Forall (fun b => b = true) (outcomes (conn w)) ->
  exists w',
    handleCreateTask h ctx payload w = (Some tt, w') /\
    wire (conn w') =
      wire (conn w) ++ (channel.sent outputChan ≫= outputFrames (domain.ID task))
        ++ [DoneFrame true 0 "Process completed successfully"
                      (domain.Status_String domain.FINISHED);
            CloseFrame 1000 "Process finished"].
Proof.
  intros Hd Hn Hi Hc Hr Hclosed Hall Hok.
  destruct (handleCreateTask_started h ctx payload req w w0 task taskCtx outputChan
              Hd Hn Hi Hc Hr) as (Hconn & _ & ->).
  set (w1 := (worker_AddTask h taskCtx task w0).2) in *.
  destruct (relayOutputs_through (domain.ID task) (channel.sent outputChan) []
              (channel.closed outputChan) w1 Hall) as (w2 & Hw2 & Hrun).
  { rewrite Hconn. by apply Forall_take. }
  rewrite app_nil_r in Hrun. rewrite Hrun.
  cbn [relayOutputs]. rewrite Hclosed.
  change (ret ChannelClosed w2) with (Some ChannelClosed, w2). cbv beta iota.
  destruct (finish_wrote w2) as (w' & -> & b1 & b2 & Hw' & _ & Hb).
  destruct Hb as [-> ->].
  { destruct Hw2 as (_ & -> & _). rewrite Hconn. by apply Forall_take, Forall_drop. }
  exists w'. split; [done|].
  pose proof (onlyWrote_trans _ _ _ _ _ Hw2 Hw') as (Ha & _).
  rewrite Hconn in Ha. rewrite (wire_app _ _ _ Ha).
  rewrite filter_app, fmap_app.
  fold (successes (withOutcome true (channel.sent outputChan ≫= outputFrames (domain.ID task)))).
  unfold successes. by rewrite withOutcome_wire.
Qed.

End HandlerClaims.

Section RelayClaims.

Import websockets.
Local Open Scope go_scope.
Context `{D : domain.Package} `{L : Libraries}.
Variable h : WSHandler.

Lemma streamTaskOutput_run ctx taskID (outputChan : channel.t domain.ProcessOutput)
    (w : World) e w1 :
  streamOutputs h taskID (channel.sent outputChan) (channel.closed outputChan) w = (e, w1) ->
  match e with
  | None => streamTaskOutput h ctx taskID outputChan w = (None, w1)
  | Some _ =>
      exists w',
        streamTaskOutput h ctx taskID outputChan w = (Some tt, w') /\
        calls w' = calls w1 ++ [CallGetTask taskID] /\
        connClosed (conn w') = connClosed (conn w1) /\
        tried (conn w') = tried (conn w1) ++ completionFrames h taskID w1
  end.
Proof.
  intros Hloop. unfold streamTaskOutput.
  destruct e as [e|]; unfold bind at 1; rewrite Hloop; [|done].
  destruct (sendTaskCompletion_wrote h ctx taskID w1) as (w' & -> & Hk & Hc & Ha).
  exists w'. split_and!; try done.
  by rewrite (tried_app _ _ _ Ha), withOutcome_fst.
Qed.


(** C3, amended.  [streamTaskOutput] leaves its loop whenever the channel is
    closed.  Whenever the loop is left, it asks the executor once with
    [GetTask] and then writes one envelope.  When [GetTask] answers with a
    task, the envelope is [task_completed] with the task's state as status
    and the exit code "COMPLETED" for the state [Completed], and otherwise the
    exit code "1" with the error "Task failed to complete".  When [GetTask]
    fails, the envelope is [task_error] with the code [task_error] and the
    failure as message. *)
Theorem streamTaskOutput_completion
    (ctx : context.t) (taskID : string)
    (outputChan : channel.t domain.ProcessOutput) (w : World) :
  exists e w1,
    streamOutputs h taskID (channel.sent outputChan) (channel.closed outputChan) w
      = (e, w1) /\
    (channel.closed outputChan = true -> e <> None) /\
    (e <> None ->
     exists w' resp action,
       streamTaskOutput h ctx taskID outputChan w = (Some tt, w') /\
       calls w' = calls w1 ++ [CallGetTask taskID] /\
       tried (conn w') = tried (conn w1) ++ envelopes action (DataResponse resp) /\
       match GetTask (worker h) (calls w1) taskID with
       | inl task =>
           action = "task_completed" /\
           TaskID resp = taskID /\
           Status resp = domain.State task /\
           CompletedAt resp = Format_RFC3339 (now w1) /\
           (domain.State task = domain.Completed ->
              ExitCode resp = "COMPLETED" /\ Error resp = "") /\
           (domain.State task <> domain.Completed ->
              ExitCode resp = "1" /\ Error resp = "Task failed to complete")
       | inr err =>
           action = "task_error" /\
           IsError resp = true /\
           ExitCode resp = "task_error" /\
           Error resp = "Error getting task status: " +:+ err
       end).
Proof.
  destruct (streamOutputs_wrote h taskID (channel.sent outputChan)
              (channel.closed outputChan) w)
    as (written & e & w1 & fs & Hrun & _ & _ & _ & _ & _ & Hnone & _ & _).
  exists e, w1. split; [done|]. split.
  { intros Hclosed ->. rewrite Hnone in Hclosed; done. }
  intros He. pose proof (streamTaskOutput_run ctx taskID outputChan w e w1 Hrun) as Hfin.
  destruct e as [e|]; [|done].
  destruct Hfin as (w' & Hfin & Hk & _ & Ht).
  unfold completionFrames in Ht.
  destruct (GetTask (worker h) (calls w1) taskID) as [task|err].
  - exists w', (completionResponse taskID task (now w1)), "task_completed".
    split_and!; try done; unfold completionResponse; simpl.
    + intros ->. by rewrite String.eqb_refl.
    + intros Hne. apply String.eqb_neq in Hne. by rewrite Hne.
  - exists w', (errorResponse "task_error" ("Error getting task status: " +:+ err)),
      "task_error".
    by split_and!.
Qed.

End RelayClaims.

(** C9 does not hold of the code.  An upgrade request whose handshake is in
    order is admitted whatever its [Origin] header and its [Host]: the
    upgrader's [CheckOrigin] answers [true] without looking at the request or
    at any configuration, [Upgrade] raises no error, and [HandleConnection]
    serves the connection, running the read loop on the messages the client
    sends. *)
Theorem foreign_origin_is_served
    `{D : domain.Package} `{L : websockets.Libraries}
    (h : websockets.WSHandler) (r : websockets.Request)
    (inbox : list websockets.WSMessage) (w : websockets.World) :
  websockets.handshake r = true ->
  websockets.CheckOrigin websockets.upgrader r = true /\
  websockets.Upgrade websockets.upgrader r = None /\
  exists res w1,
    websockets.readLoop h (context.WithCancel (websockets.reqContext r)) inbox w
      = (res, w1) /\
    (websockets.HandleConnection h r inbox w).1
      = (if res is Some _ then Some true else None) /\
    websockets.calls (websockets.HandleConnection h r inbox w).2 = websockets.calls w1.
Proof.
  intros Hok. split; [done|].
  assert (Hup : websockets.Upgrade websockets.upgrader r = None).
  { unfold websockets.Upgrade. by rewrite Hok. }
  split; [done|].
  unfold websockets.HandleConnection. rewrite Hup.
  destruct (websockets.readLoop h (context.WithCancel (websockets.reqContext r)) inbox w)
    as [res w1] eqn:Hloop.
  exists res, w1. split; [done|].
  unfold websockets.bind. rewrite Hloop.
  destruct res as [[]|]; [|done].
  unfold websockets.connWrite, websockets.connClose, websockets.ret.
  by simpl.
Qed.

(** ** The properties on the test doubles *)

Section OnDoubles.

Import websockets.



(** The failing input of C2: the task's only record reports an error with the
    status FAILED and the executor knows the task as failed; the client is
    told of a success. *)
Lemma handleCreateTask_done_message_is_constant_witness :
  let h := doubles.executor [doubles.line "exit status 2" true doubles.FAILED] (inl "Failed") in
  exists w',
    handleCreateTask (D := doubles.package) (L := doubles.libs) h
      context.Background "name=hello;image=demo" (doubles.world [] []) = (Some tt, w') /\
    wire (conn w') =
      [EnvelopeFrame
         {| Action := "task_output";
            Payload := "task_id=task-0;status=FAILED;output=exit status 2;error=;is_error=true;exit_code=;completed_at=" |};
       DoneFrame true 0 "Process completed successfully" "FINISHED";
       CloseFrame 1000 "Process finished"].
Proof.
  intros h.
  refine (handleCreateTask_done_message_is_constant
            (D := doubles.package) (L := doubles.libs) h
            context.Background "name=hello;image=demo" doubles.hello (doubles.world [] [])
            _ _ _ _ eq_refl _ _ eq_refl eq_refl eq_refl _ _).
  - discriminate.
  - discriminate.
  - repeat constructor; discriminate.
  - constructor.
Defined.

(** C3, as stated, fails: the executor does not know the task; what follows
    the output is a [task_error] envelope, and no [task_completed] one. *)
Lemma streamTaskOutput_unknown_task :
  let h := doubles.executor [] (inr "task not found") in
  let run := streamTaskOutput (D := doubles.package) (L := doubles.libs) h
               context.Background "task-0"
               (doubles.closedChan [doubles.line "hi" false doubles.RUNNING])
               (doubles.world [] []) in
  run.1 = Some tt /\
  tried (conn run.2) =
    [EnvelopeFrame
       {| Action := "task_output";
          Payload := "task_id=task-0;status=RUNNING;output=hi;error=;is_error=false;exit_code=;completed_at=" |};
     PingFrame;
     EnvelopeFrame
       {| Action := "task_error";
          Payload := "task_id=;status=;output=;error=Error getting task status: task not found;is_error=true;exit_code=task_error;completed_at=" |}].
Proof. by vm_compute. Qed.

(** Witness of C3: the channel is closed after one record and the executor
    knows the task as completed. *)
Lemma streamTaskOutput_completion_witness :
  let h := doubles.executor [] (inl "Completed") in
  exists w1 w' resp,
    streamTaskOutput (D := doubles.package) (L := doubles.libs) h
      context.Background "task-0"
      (doubles.closedChan [doubles.line "hi" false doubles.RUNNING])
      (doubles.world [] []) = (Some tt, w') /\
    tried (conn w') = tried (conn w1) ++
      envelopes (L := doubles.libs) "task_completed" (DataResponse resp) /\
    Status resp = "Completed" /\ ExitCode resp = "COMPLETED" /\ Error resp = "".
Proof.
  intros h.
  destruct (streamTaskOutput_completion (D := doubles.package) (L := doubles.libs) h
              context.Background "task-0"
              (doubles.closedChan [doubles.line "hi" false doubles.RUNNING])
              (doubles.world [] []))
    as (e & w1 & _ & Hleft & Hfin).
  destruct (Hfin (Hleft eq_refl)) as (w' & resp & action & Hrun & _ & Htried & Hresp).
  simpl in Hresp. destruct Hresp as (-> & _ & Hstatus & _ & Hdone & _).
  destruct (Hdone eq_refl) as [Hcode Herror].
  by exists w1, w', resp.
Defined.

(** Witness of C7: the payload of the design document, without a name. *)
Lemma handleCreateTask_validation_error_witness :
  let h := doubles.executor [] (inl "Completed") in
  exists resp w',
    handleCreateTask (D := doubles.package) (L := doubles.libs) h
      context.Background "image=demo" (doubles.world [] []) = (Some tt, w') /\
    IsError resp = true /\ ExitCode resp = "validation_error" /\
    tried (conn w') = envelopes (L := doubles.libs) "task_error" (DataResponse resp) /\
    calls w' = [] /\ connClosed (conn w') = false.
Proof.
  intros h.
  destruct (handleCreateTask_validation_error (D := doubles.package) (L := doubles.libs) h
              context.Background "image=demo"
              {| Name := ""; Image := "demo"; Command := []; Env := ∅;
                 WorkingDir := ""; InstanceType := ""; Timeout := 0 |}
              [] (doubles.world [] []) eq_refl (or_introl eq_refl))
    as (resp & w' & Hrun & Herr & Hcode & Htried & _ & Hcalls & Hclosed & _).
  exists resp, w'. split_and!; done.
Defined.

(** Witness of C8: an action that is none of the three known ones. *)
Lemma local_errors_become_task_error_witness :
  let h := doubles.executor [] (inl "Completed") in
  let msg := {| Action := "restart_task"; Payload := "task-0" |} in
  exists resp w',
    dispatch (D := doubles.package) (L := doubles.libs) h context.Background msg
      (doubles.world [] []) = (Some tt, w') /\
    IsError resp = true /\ ExitCode resp = "unknown_action" /\
    Error resp = "Unsupported action type" /\
    wire (conn w') = envelopes (L := doubles.libs) "task_error" (DataResponse resp) /\
    connClosed (conn w') = false.
Proof.
  intros h msg.
  destruct (local_errors_become_task_error (D := doubles.package) (L := doubles.libs) h
              context.Background msg [] (doubles.world [] [])) as [Hall Hunknown].
  destruct (Hall _ _ (Hunknown ltac:(discriminate) ltac:(discriminate) ltac:(discriminate)))
    as (resp & w' & Hrun & Herr & Hcode & Hmsg & _ & Hwire & Hclosed & _).
  exists resp, w'. split_and!; done.
Defined.

(** The failing input of C9: a page of another site opens the socket and
    starts a task. *)
Lemma foreign_origin_is_served_witness :
  let h := doubles.executor [] (inl "Completed") in
  let evil := {| Origin := Some "http://evil.example"; Host := "gateway.internal";
                 handshake := true; reqContext := context.Background |} in
  let run := HandleConnection (D := doubles.package) (L := doubles.libs) h evil
               [{| Action := "create_task"; Payload := "name=hello;image=demo" |}]
               (doubles.world [] []) in
  Upgrade upgrader evil = None /\
  run.1 = Some true /\
  exists taskCtx task, calls run.2 = [CallAddTask taskCtx task].
Proof.
  intros h evil run.
  destruct (foreign_origin_is_served (D := doubles.package) (L := doubles.libs) h evil
              [{| Action := "create_task"; Payload := "name=hello;image=demo" |}]
              (doubles.world [] []) eq_refl)
    as (_ & Hup & res & w1 & Hloop & Hres & Hcalls).
  split; [exact Hup|].
  vm_compute in Hloop. injection Hloop as <- <-.
  split; [exact Hres|]. eexists _, _. exact Hcalls.
Defined.

(** Witness of C10: the second of three records cannot be serialised. *)
Lemma handleCreateTask_marshal_failure_witness :
  let h := doubles.executor
             [doubles.line "hi" false doubles.RUNNING;
              doubles.line doubles.unencodable false doubles.RUNNING;
              doubles.line "bye" false doubles.FINISHED] (inl "Completed") in
  exists w',
    handleCreateTask (D := doubles.package) (L := doubles.strictLibs) h
      context.Background "name=hello;image=demo" (doubles.world [] []) = (Some tt, w') /\
    wire (conn w') =
      [EnvelopeFrame
         {| Action := "task_output";
            Payload := "task_id=task-0;status=RUNNING;output=hi;error=;is_error=false;exit_code=;completed_at=" |}] /\
    tried (conn w') = wire (conn w').
Proof.
  intros h.
  unshelve epose proof (handleCreateTask_marshal_failure
              (D := doubles.package) (L := doubles.strictLibs) h
              context.Background "name=hello;image=demo" doubles.hello (doubles.world [] [])
              _ _ _ _ [doubles.line "hi" false doubles.RUNNING]
              (doubles.line doubles.unencodable false doubles.RUNNING)
              [doubles.line "bye" false doubles.FINISHED]
              eq_refl _ _ eq_refl eq_refl eq_refl _ _ eq_refl)
    as (w' & Hrun & Htried & Hwire & _).
  - discriminate.
  - discriminate.
  - repeat constructor; discriminate.
  - repeat constructor.
  - exists w'. split; [exact Hrun|]. split; [exact Hwire|].
    by rewrite Htried, Hwire.
Defined.

End OnDoubles.

(** * Further properties of [remote_process_client] *)

Section ClientFacts.

Import remote_process_client.

(** What the loop forwards on an open channel, and when it is stuck. *)
Lemma receiveLoop_exact script : forall st o st',
  channel.closed (outputChan st) = false ->
  receiveLoop script st = (o, st') ->
  channel.sent (outputChan st') =
    channel.sent (outputChan st) ++
      match channel.room (outputChan st) with
      | None => framesBefore script
      | Some n => take n (framesBefore script)
      end /\
  (o = Stuck <->
   reachesEnd script = false \/
   exists n, channel.room (outputChan st) = Some n /\ n < length (framesBefore script)).
Proof.
  induction script as [|r script IH]; intros st o st' Hopen Hrun; simpl in Hrun.
  - injection Hrun as <- <-. simpl. split.
    + destruct (channel.room (outputChan st)); by rewrite ?take_nil, app_nil_r.
    + split; [by left | done].
  - destruct r as [resp| |err|v].
    + unfold channel.send in Hrun. rewrite Hopen in Hrun.
      destruct (channel.room (outputChan st)) as [[|n]|] eqn:Hroom.
      * injection Hrun as <- <-. rewrite ?Hroom. simpl. split; [by rewrite app_nil_r|].
        split; [|done]. intros _. right. exists 0. split; [done | lia].
      * apply IH in Hrun as [Hsent Hstuck]; [|done]. simpl in *.
        split; [by rewrite Hsent, <- app_assoc|].
        rewrite Hstuck. split; (intros [? | (m & Hm & Hlt)]; [by left | right]).
        -- injection Hm as <-. exists (S n). split; [done | lia].
        -- injection Hm as <-. exists n. split; [done | lia].
      * apply IH in Hrun as [Hsent Hstuck]; [|done]. simpl in *.
        split; [by rewrite Hsent, <- app_assoc|].
        rewrite Hstuck. split; (intros [? | (m & Hm & _)]; [by left | done]).
    + injection Hrun as <- <-. simpl. split.
      * destruct (channel.room (outputChan st)); by rewrite ?take_nil, app_nil_r.
      * split; [done | by intros [? | (n & _ & ?)]; [|lia]].
    + injection Hrun as <- <-. simpl. split.
      * destruct (channel.room (outputChan st)); by rewrite ?take_nil, app_nil_r.
      * split; [done | by intros [? | (n & _ & ?)]; [|lia]].
    + injection Hrun as <- <-. simpl. split.
      * destruct (channel.room (outputChan st)); by rewrite ?take_nil, app_nil_r.
      * split; [done | by intros [? | (n & _ & ?)]; [|lia]].
Qed.

(** The deferred call leaves the values of the channel alone. *)
Lemma receiveDeferred_sent o st :
  channel.sent (outputChan (receiveDeferred o st).2) = channel.sent (outputChan st).
Proof. by destruct o, (channel.closed (outputChan st)) eqn:?; simpl; rewrite ?Heqb. Qed.

(** What the loop logs up to the answer that ends the stream. *)
Lemma receiveLoop_logs frames : forall t rest st,
  endsStream t = true ->
  channel.closed (outputChan st) = false ->
  channel.takes (length frames) (outputChan st) ->
  exists o st',
    receiveLoop ((RecvFrame <$> frames) ++ t :: rest) st = (o, st') /\
    channel.closed (outputChan st') = false /\
    match t with
    | RecvPanic v => o = Panicking v /\ logs st' = logs st
    | _ => o = Returned /\ logs st' = logs st ++ exitLog t
    end.
Proof.
  induction frames as [|f frames IH]; intros t rest st Ht Hopen Hroom.
  - destruct t; try discriminate; simpl; eexists _, _;
      (split; [reflexivity|]); simpl; by rewrite ?app_nil_r.
  - simpl. unfold channel.send. rewrite Hopen.
    unfold channel.takes in Hroom.
    destruct (channel.room (outputChan st)) as [[|n]|] eqn:Hr; simpl in Hroom.
    + lia.
    + edestruct (IH t rest) as (o & st' & Hrun & Hc & Hl); [done| | |].
      3:{ exists o, st'. split; [exact Hrun|]. split; [done|]. exact Hl. }
      * done.
      * unfold channel.takes. simpl. lia.
    + edestruct (IH t rest) as (o & st' & Hrun & Hc & Hl); [done| | |].
      3:{ exists o, st'. split; [exact Hrun|]. split; [done|]. exact Hl. }
      * done.
      * by unfold channel.takes.
Qed.

End ClientFacts.

(** X1.  On a channel that is open, the receiver of [StartProcess] forwards
    the frames that come before the answer ending the stream, in order, as
    far as the consumer takes them, and nothing else.  It is blocked for
    ever exactly when the stream never ends or the consumer stops taking
    values before the stream ends; otherwise it returns. *)
Theorem receiver_forwards_frames_before_end
    (script : list remote_process_client.RecvResult)
    (st : remote_process_client.Receiver) :
  channel.closed (remote_process_client.outputChan st) = false ->
  let run := remote_process_client.receiver script st in
  channel.sent (remote_process_client.outputChan run.2) =
    channel.sent (remote_process_client.outputChan st) ++
      match channel.room (remote_process_client.outputChan st) with
      | None => remote_process_client.framesBefore script
      | Some n => take n (remote_process_client.framesBefore script)
      end /\
  (run.1 = remote_process_client.Blocked <->
   remote_process_client.reachesEnd script = false \/
   exists n, channel.room (remote_process_client.outputChan st) = Some n /\
             n < length (remote_process_client.framesBefore script)) /\
  (run.1 = remote_process_client.Blocked \/ run.1 = remote_process_client.Exited).
Proof.
  intros Hopen run. subst run. unfold remote_process_client.receiver.
  destruct (remote_process_client.receiveLoop script st) as [o st1] eqn:Hloop.
  destruct (receiveLoop_exact _ _ _ _ Hopen Hloop) as [Hsent Hstuck].
  destruct (receiveLoop_keeps_open _ _ _ _ Hopen Hloop) as [Hopen1 _].
  split; [by rewrite receiveDeferred_sent|]. rewrite <- Hstuck.
  destruct o; unfold remote_process_client.receiveDeferred, channel.close;
    simpl; rewrite ?Hopen1; simpl; split; try (by right); try (by left); done.
Qed.

(** X2.  When the stream ends after frames the consumer takes, the
    goroutine logs nothing on end-of-stream, one line carrying the error on
    a receive error, and one recovery line on a panic. *)
Theorem receiver_logs_the_end
    (frames : list pb.ProcessOutput.t) (t : remote_process_client.RecvResult)
    (rest : list remote_process_client.RecvResult)
    (st : remote_process_client.Receiver) :
  remote_process_client.endsStream t = true ->
  channel.closed (remote_process_client.outputChan st) = false ->
  channel.takes (length frames) (remote_process_client.outputChan st) ->
  remote_process_client.logs
    (remote_process_client.receiver
       ((remote_process_client.RecvFrame <$> frames) ++ t :: rest) st).2
  = remote_process_client.logs st ++ remote_process_client.exitLog t.
Proof.
  intros Ht Hopen Hroom. unfold remote_process_client.receiver.
  destruct (receiveLoop_logs frames t rest st Ht Hopen Hroom)
    as (o & st' & -> & Hopen' & Hlog).
  destruct t as [| |err|v]; try discriminate; destruct Hlog as [-> Hl];
    unfold remote_process_client.receiveDeferred, channel.close; simpl;
    rewrite ?Hopen'; simpl; by rewrite Hl, ?app_nil_r.
Qed.

(** X3.  On a channel that somebody else has closed, every exit of the
    receiver ends in the panic of the deferred [close], which nobody
    recovers: also the exit through the recovered panic of a send on the
    closed channel. *)
Theorem receiver_on_closed_channel_crashes
    (r : remote_process_client.RecvResult)
    (script : list remote_process_client.RecvResult)
    (st : remote_process_client.Receiver) :
  channel.closed (remote_process_client.outputChan st) = true ->
  (remote_process_client.receiver (r :: script) st).1
    = remote_process_client.Crashed "close of closed channel" /\
  channel.sent (remote_process_client.outputChan
                  (remote_process_client.receiver (r :: script) st).2)
    = channel.sent (remote_process_client.outputChan st).
Proof.
  intros Hclosed. unfold remote_process_client.receiver. simpl.
  destruct r as [resp| |err|v]; unfold channel.send;
    rewrite ?Hclosed; simpl; by rewrite Hclosed.
Qed.

(** X4.  With a stub that returns once its context has expired, a caller
    whose context expires at [d] gets [StopProcess] back by [d] (or at once
    when [d] is past): the local timeout never postpones the caller's own
    deadline. *)
Theorem StopProcess_keeps_caller_deadline
    (client_StopProcess :
       context.t -> Z -> pb.ProcessStopRequest.t ->
       option Z * (pb.ProcessStopResponse.t + string))
    (ctx : context.t) (now d : Z) (processID : string) :
  (forall c t req e,
     context.deadline c = Some e ->
     exists back, (client_StopProcess c t req).1 = Some back /\ (back <= Z.max t e)%Z) ->
  context.deadline ctx = Some d ->
  exists back,
    (remote_process_client.StopProcess client_StopProcess ctx now processID).1 = Some back /\
    (back <= Z.max now d)%Z.
Proof.
  intros Hstub Hd. unfold remote_process_client.StopProcess.
  set (ctx' := context.WithTimeout ctx (5 * context.Second) now).
  assert (context.deadline ctx' = Some (Z.min d (now + 5 * context.Second))) as Hd'.
  { unfold ctx', context.WithTimeout. by rewrite Hd. }
  destruct (Hstub ctx' now (pb.ProcessStopRequest.mk processID) _ Hd')
    as (back & Hback & Hbound).
  exists back.
  destruct (client_StopProcess ctx' now (pb.ProcessStopRequest.mk processID))
    as [t [response|err]]; simpl in *; (split; [done|]); lia.
Qed.

Section MonitorFacts.

Import remote_process_client.

(** What the loop of [MonitorHealth] delivers and puts forward. *)
Lemma monitorLoop_trace processID script : forall st o st',
  monitorLoop processID script st = (o, st') ->
  exists k tail u,
    healthChan st' = healthChan st ++ take k (healthFrames script) ++ tail /\
    offered st' = offered st ++ take k (healthFrames script) ++ tail ++ u /\
    (tail = [] \/ exists err, tail = [degraded processID err]) /\
    length tail + length u <= 1.
Proof.
  induction script as [|t script IH]; intros st o st' Hrun; simpl in Hrun.
  - injection Hrun as <- <-. exists 0, [], []. simpl. rewrite !app_nil_r.
    split_and!; try done; try (simpl; lia); by left.
  - assert (Hsame : forall o0, (o0, st) = (o, st') ->
              exists k tail u,
                healthChan st' = healthChan st ++ take k (healthFrames (t :: script)) ++ tail /\
                offered st' = offered st ++ take k (healthFrames (t :: script)) ++ tail ++ u /\
                (tail = [] \/ exists err, tail = [degraded processID err]) /\
                length tail + length u <= 1).
    { intros o0 Heq. injection Heq as <- <-. exists 0, [], []. simpl.
      rewrite !app_nil_r. split_and!; try done; try (simpl; lia); by left. }
    destruct (doneAtTop t); [by eapply Hsame|].
    destruct (recv t) as [resp| |err|v] eqn:Hrecv; try (by eapply Hsame).
    + destruct (selectSendOrDone t).
      * apply IH in Hrun as (k & tail & u & Hc & Ho & Ht & Hlen).
        exists (S k), tail, u. simpl in *. rewrite Hrecv. simpl.
        rewrite Hc, Ho, <- !app_assoc. split_and!; try done; simpl; lia.
      * injection Hrun as <- <-. exists 0, [], [resp]. simpl.
        rewrite !app_nil_r. split_and!; try done; try (simpl; lia); by left.
      * injection Hrun as <- <-. exists 0, [], [resp]. simpl.
        rewrite !app_nil_r. split_and!; try done; try (simpl; lia); by left.
    + destruct (context.Err_eqb (ctxErr t) context.Canceled); [by eapply Hsame|].
      destruct (selectSendOrDone t); injection Hrun as <- <-.
      * exists 0, [degraded processID err], []. simpl. split_and!; try done; try (simpl; lia).
        right. by exists err.
      * exists 0, [], [degraded processID err]. simpl. rewrite !app_nil_r.
        split_and!; try done; try (simpl; lia); by left.
      * exists 0, [], [degraded processID err]. simpl. rewrite !app_nil_r.
        split_and!; try done; try (simpl; lia); by left.
Qed.

End MonitorFacts.

(** X5.  When [MonitorHealth] returns no error, what its goroutine delivers
    on [healthChan] is a prefix of the server's frames, in order, followed by
    at most one degraded record, which is then the last; at most one record
    put forward is not delivered, the last one; and the goroutine either
    returns or is blocked: a panic in [Recv] does not escape it. *)
Theorem MonitorHealth_delivers_frames_then_degraded
    (stream : remote_process_client.HealthStream) (ctx : context.t)
    (processID : string) (checkInterval : Z) :
  remote_process_client.hopenErr stream = None ->
  remote_process_client.hsendErr stream = None ->
  exists e st k tail u,
    remote_process_client.monitor
      (remote_process_client.MonitorHealth stream ctx processID checkInterval)
      = Some (e, st) /\
    (e = remote_process_client.Exited \/ e = remote_process_client.Blocked) /\
    remote_process_client.healthChan st =
      take k (remote_process_client.healthFrames (remote_process_client.turns stream))
        ++ tail /\
    (tail = [] \/ exists err, tail = [remote_process_client.degraded processID err]) /\
    remote_process_client.offered st = remote_process_client.healthChan st ++ u /\
    length tail + length u <= 1.
Proof.
  intros Hopen Hsend. unfold remote_process_client.MonitorHealth.
  rewrite Hopen, Hsend. simpl.
  destruct (remote_process_client.monitorLoop processID
              (remote_process_client.turns stream) _) as [o st1] eqn:Hloop.
  destruct (monitorLoop_trace _ _ _ _ _ Hloop) as (k & tail & u & Hc & Ho & Ht & Hlen).
  simpl in Hc, Ho.
  exists (remote_process_client.monitorDeferred o st1).1,
         (remote_process_client.monitorDeferred o st1).2, k, tail, u.
  split; [by destruct (remote_process_client.monitorDeferred o st1)|].
  destruct o; simpl; rewrite Hc, Ho, <- ?app_assoc; split_and!; try done;
    by (left + right).
Qed.

(** Witness of X5: the first [Recv] fails and the consumer is waiting. *)
Lemma MonitorHealth_delivers_frames_then_degraded_witness :
  exists e st k tail u,
    remote_process_client.monitor
      (remote_process_client.MonitorHealth
         (doubles.brokenHealth context.ErrNil true false) context.Background "p1" 5)
      = Some (e, st) /\
    (e = remote_process_client.Exited \/ e = remote_process_client.Blocked) /\
    remote_process_client.healthChan st =
      take k (remote_process_client.healthFrames
                (remote_process_client.turns
                   (doubles.brokenHealth context.ErrNil true false))) ++ tail /\
    (tail = [] \/ exists err, tail = [remote_process_client.degraded "p1" err]) /\
    remote_process_client.offered st = remote_process_client.healthChan st ++ u /\
    length tail + length u <= 1.
Proof.
  exact (MonitorHealth_delivers_frames_then_degraded
           (doubles.brokenHealth context.ErrNil true false) context.Background "p1" 5
           eq_refl eq_refl).
Defined.

(** Witness of X1: the consumer takes one value of a stream of two frames. *)
Lemma receiver_forwards_frames_before_end_witness :
  let st := {| remote_process_client.outputChan := channel.make (Some 1);
               remote_process_client.logs := [] |} in
  let run := remote_process_client.receiver
               (remote_process_client.recvs doubles.faultyStart) st in
  channel.sent (remote_process_client.outputChan run.2)
    = [pb.ProcessOutput.mk "p1" "hello" false] /\
  run.1 = remote_process_client.Blocked.
Proof.
  intros st run.
  destruct (receiver_forwards_frames_before_end
              (remote_process_client.recvs doubles.faultyStart) st eq_refl)
    as (Hsent & Hblocked & _).
  split; [exact Hsent|]. apply Hblocked. right. exists 1. split; [reflexivity|].
  simpl. lia.
Defined.

(** Witness of X2: two frames, then a receive error. *)
Lemma receiver_logs_the_end_witness :
  remote_process_client.logs
    (remote_process_client.receiver
       ((remote_process_client.RecvFrame <$>
           [pb.ProcessOutput.mk "p1" "hello" false; pb.ProcessOutput.mk "p1" "world" false])
        ++ remote_process_client.RecvError "rpc error: code = Unavailable" :: [])
       {| remote_process_client.outputChan := channel.make None;
          remote_process_client.logs := [] |}).2
  = ["Error receiving response: rpc error: code = Unavailable"].
Proof.
  exact (receiver_logs_the_end
           [pb.ProcessOutput.mk "p1" "hello" false; pb.ProcessOutput.mk "p1" "world" false]
           (remote_process_client.RecvError "rpc error: code = Unavailable") []
           {| remote_process_client.outputChan := channel.make None;
              remote_process_client.logs := [] |} eq_refl eq_refl I).
Defined.

(** Witness of X3: a frame arrives for a channel already closed. *)
Lemma receiver_on_closed_channel_crashes_witness :
  let st := {| remote_process_client.outputChan :=
                 {| channel.sent := []; channel.closed := true;
                    channel.closeCalls := 1; channel.room := None |};
               remote_process_client.logs := [] |} in
  (remote_process_client.receiver
     (remote_process_client.recvs doubles.faultyStart) st).1
  = remote_process_client.Crashed "close of closed channel".
Proof.
  intros st.
  exact (proj1 (receiver_on_closed_channel_crashes _ _ st eq_refl)).
Defined.

(** Witness of X4: the caller's context expires two seconds from now, the
    server never answers. *)
Lemma StopProcess_keeps_caller_deadline_witness :
  exists back,
    (remote_process_client.StopProcess doubles.stalledStop
       (context.mk (Some 2000000100%Z)) 100 "p1").1 = Some back /\
    (back <= Z.max 100 2000000100)%Z.
Proof.
  apply (StopProcess_keeps_caller_deadline doubles.stalledStop
           (context.mk (Some 2000000100%Z)) 100 2000000100 "p1"); [|reflexivity].
  intros c t req e He. unfold doubles.stalledStop. rewrite He.
  exists (Z.max t e). split; [reflexivity | lia].
Defined.

(** * Further properties of [websockets] *)

Section HandlerEffects.

Import websockets.
Local Open Scope go_scope.
Context `{D : domain.Package} `{L : Libraries}.
Variable h : WSHandler.

Lemma ran_refl (w : World) : ran w w [] [] 0.
Proof. unfold ran. rewrite !app_nil_r. split_and!; try done; lia. Qed.

Lemma ran_trans (w1 w2 w3 : World) cs cs' fs fs' i j :
  ran w1 w2 cs fs i -> ran w2 w3 cs' fs' j ->
  ran w1 w3 (cs ++ cs') (fs ++ fs') (i + j).
Proof.
  unfold ran. intros (Hk & Ha & Hc & Hd & Hn) (Hk' & Ha' & Hc' & Hd' & Hn').
  rewrite Hk', Hk, Ha', Ha, Hc', Hc, Hd', Hd, Hn', Hn, !app_assoc.
  split_and!; try done; lia.
Qed.

Lemma onlyWrote_ran (w w' : World) fs : onlyWrote w w' fs -> ran w w' [] fs 0.
Proof.
  unfold onlyWrote, ran. intros (Ha & _ & Hc & Hk & _ & Hd & Hn).
  rewrite Ha, Hc, Hk, Hd, Hn, app_nil_r. split_and!; try done; lia.
Qed.

Lemma createTaskFromRequest_ran ctx req (w : World) :
  exists task taskCtx w0,
    createTaskFromRequest ctx req w = (Some (task, taskCtx), w0) /\
    ran w w0 [] [] 1 /\
    domain.ID task = uuid_New (drawn w).
Proof.
  unfold createTaskFromRequest, timeNow, uuidNew, bind, ret.
  eexists _, _, _. split; [reflexivity|]. unfold ran. simpl.
  rewrite !app_nil_r. split_and!; try done; lia.
Qed.

Lemma worker_AddTask_ran taskCtx task (w : World) :
  exists w1,
    worker_AddTask h taskCtx task w
      = (Some (AddTask (worker h) (calls w) taskCtx task), w1) /\
    ran w w1 [CallAddTask taskCtx task] [] 0.
Proof.
  eexists. split; [reflexivity|]. unfold ran. simpl.
  rewrite !app_nil_r. split_and!; try done; lia.
Qed.

Lemma worker_StopTask_ran id (w : World) :
  exists w1,
    worker_StopTask h id w = (Some (StopTask (worker h) (calls w) id), w1) /\
    ran w w1 [CallStopTask id] [] 0 /\ ctxDone w1 = ctxDone w /\
    outcomes (conn w1) = outcomes (conn w) /\ conn w1 = conn w.
Proof.
  eexists. split; [reflexivity|]. unfold ran. simpl.
  rewrite !app_nil_r. split_and!; try done; lia.
Qed.

Lemma worker_GetTasks_ran (w : World) :
  exists w1,
    worker_GetTasks h w = (Some (GetTasks (worker h) (calls w)), w1) /\
    ran w w1 [CallGetTasks] [] 0 /\ conn w1 = conn w.
Proof.
  eexists. split; [reflexivity|]. unfold ran. simpl.
  rewrite !app_nil_r. split_and!; try done; lia.
Qed.

(** The calls, the writes and the identifiers of [handleCreateTask]. *)
Lemma handleCreateTask_ran ctx payload (w : World) r w' :
  handleCreateTask h ctx payload w = (r, w') ->
  exists cs fs ids,
    ran w w' cs fs ids /\
    match json_Unmarshal_TaskRequest payload with
    | Some req =>
        if String.eqb (Name req) "" || String.eqb (Image req) ""
        then cs = [] /\ ids = 0
        else exists task taskCtx w0,
               createTaskFromRequest ctx req w = (Some (task, taskCtx), w0) /\
               cs = [CallAddTask taskCtx task] /\ ids = 1 /\
               domain.ID task = uuid_New (drawn w)
    | None => cs = [] /\ ids = 0
    end.
Proof.
  intros Hrun. unfold handleCreateTask in Hrun.
  destruct (json_Unmarshal_TaskRequest payload) as [req|].
  2:{ destruct (sendError_wrote "invalid_request" "Error decoding task request" w)
        as (w1 & Hs & Hw). rewrite Hs in Hrun. injection Hrun as <- <-.
      eexists [], _, 0. split; [by apply onlyWrote_ran|done]. }
  destruct (String.eqb (Name req) "" || String.eqb (Image req) "").
  { destruct (sendError_wrote "validation_error" "Name and Image are required fields" w)
      as (w1 & Hs & Hw). rewrite Hs in Hrun. injection Hrun as <- <-.
    eexists [], _, 0. split; [by apply onlyWrote_ran|done]. }
  destruct (createTaskFromRequest_ran ctx req w) as (task & taskCtx & w0 & Hc & Hw0 & Hid).
  unfold bind at 1 in Hrun. rewrite Hc in Hrun.
  destruct (worker_AddTask_ran taskCtx task w0) as (w1 & Ha & Hw1).
  unfold bind at 1 in Hrun. rewrite Ha in Hrun.
  pose proof (ran_trans _ _ _ _ _ _ _ _ _ Hw0 Hw1) as Hw01. simpl in Hw01.
  assert (Hend : forall w2 fs, ran w1 w2 [] fs 0 ->
            exists cs fs' ids, ran w w2 cs fs' ids /\
              exists task' taskCtx' w0',
                createTaskFromRequest ctx req w = (Some (task', taskCtx'), w0') /\
                cs = [CallAddTask taskCtx' task'] /\ ids = 1 /\
                domain.ID task' = uuid_New (drawn w)).
  { intros w2 fs Hw2. pose proof (ran_trans _ _ _ _ _ _ _ _ _ Hw01 Hw2) as Hall.
    simpl in Hall. eexists _, _, _. split; [exact Hall|]. by exists task, taskCtx, w0. }
  destruct (AddTask (worker h) (calls w0) taskCtx task) as [outputChan|err].
  - unfold bind at 1 in Hrun.
    destruct (relayOutputs_wrote (domain.ID task) (channel.sent outputChan)
                (channel.closed outputChan) w1)
      as (delivered & rest & e & w2 & Hrel & _ & He).
    rewrite Hrel in Hrun.
    destruct e as [[| | |]|].
    + destruct He as (_ & _ & Hw2).
      destruct (finish_wrote w2) as (w3 & Hfin & b1 & b2 & Hw3 & _).
      rewrite Hfin in Hrun. injection Hrun as <- <-.
      eapply Hend. apply onlyWrote_ran. by eapply onlyWrote_trans.
    + destruct He as (_ & Hw2). injection Hrun as <- <-.
      eapply Hend. by apply onlyWrote_ran.
    + destruct He as (o & post & _ & Hw2). injection Hrun as <- <-.
      eapply Hend. by apply onlyWrote_ran.
    + done.
    + destruct He as (_ & _ & Hw2). injection Hrun as <- <-.
      eapply Hend. by apply onlyWrote_ran.
  - destruct (sendError_wrote "create_error" ("Error creating task: " +:+ err) w1)
      as (w2 & Hs & Hw2). rewrite Hs in Hrun. injection Hrun as <- <-.
    eapply Hend. by apply onlyWrote_ran.
Qed.

(** The calls and the writes of [handleStopTask]. *)
Lemma handleStopTask_ran ctx payload (w : World) :
  exists w' fs,
    handleStopTask h ctx payload w = (Some tt, w') /\
    match json_Unmarshal_TaskID payload with
    | None =>
        ran w w' [] fs 0 /\
        fs = withOutcome (nextWriteOk (conn w))
               (envelopes "task_error"
                  (DataResponse (errorResponse "invalid_request" "Invalid task ID format")))
    | Some id =>
        ran w w' [CallStopTask id] fs 0 /\
        fs = withOutcome (nextWriteOk (conn w))
               match StopTask (worker h) (calls w) id with
               | Some err =>
                   envelopes "task_error" (DataResponse (errorResponse "stop_error" err))
               | None =>
                   envelopes "task_stopped"
                     (DataResponse {| TaskID := id; Status := "stopped"; Output := "";
                                      Error := ""; IsError := false; ExitCode := "";
                                      CompletedAt := "" |})
               end
    end.
Proof.
  unfold handleStopTask. destruct (json_Unmarshal_TaskID payload) as [id|].
  - unfold bind at 1.
    destruct (worker_StopTask_ran id w) as (w1 & -> & Hw1 & _ & _ & Hconn).
    destruct (StopTask (worker h) (calls w) id) as [err|].
    + destruct (sendError_wrote "stop_error" err w1) as (w2 & -> & Hw2).
      eexists _, _. split; [reflexivity|]. rewrite <- Hconn. split; [|reflexivity].
      exact (ran_trans _ _ _ _ _ _ _ _ _ Hw1 (onlyWrote_ran _ _ _ Hw2)).
    + unfold bind at 1.
      match goal with
      | |- context [sendJSON ?a ?d w1] =>
          destruct (sendJSON_wrote a d w1) as (ok & w2 & -> & _ & Hw2)
      end.
      eexists _, _. split; [reflexivity|]. rewrite <- Hconn. split; [|reflexivity].
      exact (ran_trans _ _ _ _ _ _ _ _ _ Hw1 (onlyWrote_ran _ _ _ Hw2)).
  - destruct (sendError_wrote "invalid_request" "Invalid task ID format" w)
      as (w1 & -> & Hw1).
    eexists _, _. split; [reflexivity|]. split; [|reflexivity]. by apply onlyWrote_ran.
Qed.

(** The calls and the writes of [handleListTasks]. *)
Lemma handleListTasks_ran ctx (w : World) :
  exists w',
    handleListTasks h ctx w = (Some tt, w') /\
    ran w w' [CallGetTasks]
      (withOutcome (nextWriteOk (conn w))
         match GetTasks (worker h) (calls w) with
         | inl tasks => envelopes "task_list" (DataTasks tasks)
         | inr _ =>
             envelopes "task_error"
               (DataResponse (errorResponse "list_error" "Error retrieving tasks"))
         end) 0.
Proof.
  unfold handleListTasks, bind at 1.
  destruct (worker_GetTasks_ran w) as (w1 & -> & Hw1 & Hconn).
  destruct (GetTasks (worker h) (calls w)) as [tasks|err].
  - unfold bind at 1.
    destruct (sendJSON_wrote "task_list" (DataTasks tasks) w1) as (ok & w2 & -> & _ & Hw2).
    eexists. split; [reflexivity|]. rewrite <- Hconn.
    exact (ran_trans _ _ _ _ _ _ _ _ _ Hw1 (onlyWrote_ran _ _ _ Hw2)).
  - destruct (sendError_wrote "list_error" "Error retrieving tasks" w1) as (w2 & -> & Hw2).
    eexists. split; [reflexivity|]. rewrite <- Hconn.
    exact (ran_trans _ _ _ _ _ _ _ _ _ Hw1 (onlyWrote_ran _ _ _ Hw2)).
Qed.

(** Handling one message draws at most one identifier, that of the task it
    hands to [AddTask], and leaves the connection open. *)
Lemma dispatch_ran ctx msg (w : World) r w' :
  dispatch h ctx msg w = (r, w') ->
  exists cs fs ids,
    ran w w' cs fs ids /\
    addedIDs cs = uuid_New <$> seq (drawn w) ids.
Proof.
  unfold dispatch. intros Hrun.
  destruct (String.eqb (Action msg) "create_task").
  { destruct (handleCreateTask_ran ctx _ w r w' Hrun) as (cs & fs & ids & Hw & Hcase).
    exists cs, fs, ids. split; [done|].
    destruct (json_Unmarshal_TaskRequest (Payload msg)) as [req|].
    - destruct (String.eqb (Name req) "" || String.eqb (Image req) "").
      + by destruct Hcase as [-> ->].
      + destruct Hcase as (task & taskCtx & w0 & _ & -> & -> & Hid). simpl. by rewrite Hid.
    - by destruct Hcase as [-> ->]. }
  destruct (String.eqb (Action msg) "stop_task").
  { destruct (handleStopTask_ran ctx (Payload msg) w) as (w1 & fs & Hs & Hcase).
    rewrite Hs in Hrun. injection Hrun as <- <-.
    destruct (json_Unmarshal_TaskID (Payload msg)) as [id|]; destruct Hcase as [Hw _];
      by eexists _, _, 0. }
  destruct (String.eqb (Action msg) "list_tasks").
  { destruct (handleListTasks_ran ctx w) as (w1 & Hs & Hw).
    rewrite Hs in Hrun. injection Hrun as <- <-. by eexists _, _, 0. }
  destruct (sendError_wrote "unknown_action" "Unsupported action type" w) as (w1 & Hs & Hw).
  rewrite Hs in Hrun. injection Hrun as <- <-.
  eexists [], _, 0. split; [by apply onlyWrote_ran|done].
Qed.

(** The same along the read loop. *)
Lemma readLoop_ran ctx inbox : forall (w : World) r w',
  readLoop h ctx inbox w = (r, w') ->
  exists cs fs ids,
    ran w w' cs fs ids /\
    addedIDs cs = uuid_New <$> seq (drawn w) ids.
Proof.
  induction inbox as [|msg inbox IH]; intros w r w' Hrun; cbn [readLoop] in Hrun.
  - injection Hrun as <- <-. exists [], [], 0. split; [apply ran_refl|done].
  - unfold bind at 1 in Hrun.
    destruct (dispatch h ctx msg w) as [r1 w1] eqn:Hd.
    destruct (dispatch_ran ctx msg w r1 w1 Hd) as (cs & fs & ids & Hw & Hids).
    destruct r1 as [[]|].
    + destruct (IH w1 r w' Hrun) as (cs' & fs' & ids' & Hw' & Hids').
      exists (cs ++ cs'), (fs ++ fs'), (ids + ids').
      split; [by eapply ran_trans|].
      unfold addedIDs in *. rewrite omap_app, Hids, Hids'.
      destruct Hw as (_ & _ & _ & -> & _). by rewrite seq_app, fmap_app.
    + injection Hrun as <- <-. by exists cs, fs, ids.
Qed.

End HandlerEffects.

Section HandlerExtras.

Import websockets.
Local Open Scope go_scope.
Context `{D : domain.Package} `{L : Libraries}.
Variable h : WSHandler.

Lemma int64_small (z : Z) :
  (- 2 ^ 63 <= z < 2 ^ 63)%Z -> int64 z = z.
Proof. intros Hz. unfold int64. rewrite Z.mod_small; lia. Qed.

Lemma int64_wraps (z : Z) :
  (2 ^ 63 <= z < 2 ^ 64)%Z -> int64 z = (z - 2 ^ 64)%Z.
Proof.
  intros Hz. unfold int64.
  replace (z + 2 ^ 63)%Z with ((z - 2 ^ 63) + 1 * 2 ^ 64)%Z by lia.
  rewrite Z.mod_add by lia. rewrite Z.mod_small; lia.
Qed.

(** X6.  For a request that is valid, [handleCreateTask] calls the executor
    once, with [AddTask] on the task it built (the identifier just drawn, the
    request's name, the state [Scheduled]), and draws one identifier:
    whatever [AddTask] answers and however the relay ends, it calls neither
    [StopTask] nor [GetTask].  For a payload it rejects it calls nothing and
    draws nothing. *)
Theorem handleCreateTask_executor_calls
    (ctx : context.t) (payload : string) (w : World) (r : option unit) (w' : World) :
  handleCreateTask h ctx payload w = (r, w') ->
  (json_Unmarshal_TaskRequest payload = None ->
   calls w' = calls w /\ drawn w' = drawn w) /\
  (forall req, json_Unmarshal_TaskRequest payload = Some req ->
     Name req = "" \/ Image req = "" ->
     calls w' = calls w /\ drawn w' = drawn w) /\
  (forall req, json_Unmarshal_TaskRequest payload = Some req ->
     Name req <> "" -> Image req <> "" ->
     exists task taskCtx w0,
       createTaskFromRequest ctx req w = (Some (task, taskCtx), w0) /\
       calls w' = calls w ++ [CallAddTask taskCtx task] /\
       drawn w' = S (drawn w) /\
       domain.ID task = uuid_New (drawn w) /\
       domain.Name task = Name req /\
       domain.State task = domain.Scheduled /\
       domain.Image (domain.Spec task) = Image req).
Proof.
  intros Hrun.
  destruct (handleCreateTask_ran h ctx payload w r w' Hrun)
    as (cs & fs & ids & (Hk & _ & _ & Hd & _) & Hcase).
  split_and!.
  - intros Hnone. rewrite Hnone in Hcase. destruct Hcase as [-> ->].
    rewrite Hk, Hd, app_nil_r. split; [done | lia].
  - intros req Hreq Hbad. rewrite Hreq in Hcase.
    assert (String.eqb (Name req) "" || String.eqb (Image req) "" = true) as Hb.
    { destruct Hbad as [-> | ->]; [done | by rewrite orb_true_r]. }
    rewrite Hb in Hcase. destruct Hcase as [-> ->].
    rewrite Hk, Hd, app_nil_r. split; [done | lia].
  - intros req Hreq Hn Hi. rewrite Hreq in Hcase.
    apply String.eqb_neq in Hn, Hi. rewrite Hn, Hi in Hcase. simpl in Hcase.
    destruct Hcase as (task & taskCtx & w0 & Hc & -> & -> & Hid).
    exists task, taskCtx, w0. rewrite Hk, Hd. split_and!; try done; try lia.
    all: unfold createTaskFromRequest, timeNow, uuidNew, bind, ret in Hc;
      by injection Hc as <- _ _.
Qed.

(** X7.  The context [createTaskFromRequest] hands on: with a timeout that
    is not positive it expires with the connection's context; with a timeout
    of up to 9223372036 seconds it expires that many seconds from now, or
    with the connection's context when that is earlier; from 9223372037
    seconds on (up to 18446744073) the duration wraps around in [int64] and
    the context is expired from the start. *)
Theorem createTaskFromRequest_deadline
    (parent : context.t) (req : TaskRequest) (w w0 : World)
    (task : domain.Task) (taskCtx : context.t) :
  createTaskFromRequest parent req w = (Some (task, taskCtx), w0) ->
  ((Timeout req <= 0)%Z -> context.deadline taskCtx = context.deadline parent) /\
  ((0 < Timeout req <= 9223372036)%Z ->
   context.deadline taskCtx =
     Some (match context.deadline parent with
           | Some p => Z.min p (now w + Timeout req * 1000000000)
           | None => (now w + Timeout req * 1000000000)%Z
           end)) /\
  ((9223372037 <= Timeout req <= 18446744073)%Z ->
   exists d, context.deadline taskCtx = Some d /\ (d < now w)%Z).
Proof.
  unfold createTaskFromRequest, timeNow, uuidNew, bind, ret. intros Hrun.
  injection Hrun as _ <- _.
  unfold context.WithCancel, context.WithTimeout, context.Second.
  change (2 ^ 63)%Z with 9223372036854775808%Z in *.
  split_and!.
  - intros Hle. by destruct (Z.ltb_spec 0 (Timeout req)); [lia|].
  - intros Hin. destruct (Z.ltb_spec 0 (Timeout req)); [|lia].
    rewrite int64_small.
    + by destruct (context.deadline parent).
    + change (2 ^ 63)%Z with 9223372036854775808%Z. lia.
  - intros Hin. destruct (Z.ltb_spec 0 (Timeout req)); [|lia].
    rewrite int64_wraps.
    + change (2 ^ 64)%Z with 18446744073709551616%Z.
      destruct (context.deadline parent) as [p|]; simpl; eexists; (split; [reflexivity|]); lia.
    + change (2 ^ 63)%Z with 9223372036854775808%Z.
      change (2 ^ 64)%Z with 18446744073709551616%Z. lia.
Qed.

(** X8.  Along the read loop the identifiers of the tasks handed to
    [AddTask] are those drawn from [uuid.New] since the loop began, one per
    task and in the order of the calls: they are pairwise distinct as long
    as [uuid.New] does not repeat itself. *)
Theorem readLoop_task_ids_distinct
    (ctx : context.t) (inbox : list WSMessage) (w : World)
    (r : option unit) (w' : World) :
  Inj (=) (=) uuid_New ->
  readLoop h ctx inbox w = (r, w') ->
  exists cs,
    calls w' = calls w ++ cs /\
    addedIDs cs = uuid_New <$> seq (drawn w) (drawn w' - drawn w) /\
    NoDup (addedIDs cs).
Proof.
  intros Hinj Hrun.
  destruct (readLoop_ran h ctx inbox w r w' Hrun) as (cs & fs & ids & Hw & Hids).
  destruct Hw as (Hk & _ & _ & Hd & _).
  exists cs. split; [done|].
  replace (drawn w' - drawn w) with ids by lia.
  split; [done|]. rewrite Hids. apply NoDup_fmap_2; [done | apply NoDup_seq].
Qed.

(** X9.  [handleStopTask] returns after at most one call of the executor
    and one write, and leaves the connection open.  A payload that does not
    decode leads to no call.  A decoded identifier is handed to [StopTask]
    once; when the executor accepts, what is written is a [task_stopped]
    envelope with this identifier and the status "stopped", and when it
    refuses, a [task_error] envelope with the code [stop_error] and the
    executor's message. *)
Theorem handleStopTask_stops_then_reports
    (ctx : context.t) (payload : string) (w : World) :
  exists w',
    handleStopTask h ctx payload w = (Some tt, w') /\
    connClosed (conn w') = connClosed (conn w) /\
    drawn w' = drawn w /\
    (json_Unmarshal_TaskID payload = None -> calls w' = calls w) /\
    (forall id, json_Unmarshal_TaskID payload = Some id ->
       calls w' = calls w ++ [CallStopTask id] /\
       (StopTask (worker h) (calls w) id = None ->
        exists resp,
          TaskID resp = id /\ Status resp = "stopped" /\ IsError resp = false /\
          tried (conn w') = tried (conn w) ++ envelopes "task_stopped" (DataResponse resp)) /\
       (forall err, StopTask (worker h) (calls w) id = Some err ->
        tried (conn w') = tried (conn w) ++
          envelopes "task_error" (DataResponse (errorResponse "stop_error" err)))).
Proof.
  destruct (handleStopTask_ran h ctx payload w) as (w' & fs & Hrun & Hcase).
  exists w'. split; [done|].
  destruct (json_Unmarshal_TaskID payload) as [id|];
    destruct Hcase as [(Hk & Ha & Hc & Hd & _) ->].
  - split_and!; try done; try lia.
    intros id' [= <-]. split_and!; try done.
    + intros Hok. rewrite Hok in Ha. eexists. split_and!; [| | |].
      4:{ by rewrite (tried_app _ _ _ Ha), withOutcome_fst. }
      all: done.
    + intros err Herr. rewrite Herr in Ha.
      by rewrite (tried_app _ _ _ Ha), withOutcome_fst.
  - split_and!; try done; try lia. by rewrite Hk, app_nil_r.
Qed.

(** X10.  [handleListTasks] asks the executor once with [GetTasks] and
    writes once: on success a [task_list] envelope that serialises the tasks
    as the executor returned them, all of them and in its order; on failure a
    [task_error] envelope with the code [list_error], in which the
    executor's own message does not appear. *)
Theorem handleListTasks_lists_all
    (ctx : context.t) (w : World) :
  exists w',
    handleListTasks h ctx w = (Some tt, w') /\
    calls w' = calls w ++ [CallGetTasks] /\
    connClosed (conn w') = connClosed (conn w) /\
    tried (conn w') = tried (conn w) ++
      match GetTasks (worker h) (calls w) with
      | inl tasks => envelopes "task_list" (DataTasks tasks)
      | inr _ =>
          envelopes "task_error"
            (DataResponse (errorResponse "list_error" "Error retrieving tasks"))
      end.
Proof.
  destruct (handleListTasks_ran h ctx w) as (w' & Hrun & Hk & Ha & Hc & _).
  exists w'. split_and!; try done.
  by rewrite (tried_app _ _ _ Ha), withOutcome_fst.
Qed.

End HandlerExtras.

Section LoopExtras.

Import websockets.
Local Open Scope go_scope.
Context `{D : domain.Package} `{L : Libraries}.
Variable h : WSHandler.

(** While no poll of the context answers "done", the loop of
    [streamTaskOutput] is not left through the cancellation. *)
Lemma streamOutputs_never_cancelled taskID pending closes : forall (w : World) e w',
  Forall (fun b => b = false) (ctxDone w) ->
  streamOutputs h taskID pending closes w = (e, w') ->
  e <> Some ContextDone.
Proof.
  induction pending as [|output pending IH]; intros w e w' Hno Hrun;
    cbn [streamOutputs] in Hrun.
  - destruct closes; by injection Hrun as <- <-.
  - unfold bind at 1 in Hrun.
    destruct (sendJSON_wrote "task_output"
                (DataResponse (outputResponse taskID output)) w)
      as (ok & w1 & Hs & _ & Hw1).
    rewrite Hs in Hrun. destruct Hw1 as (_ & _ & _ & _ & Hpolls & _).
    destruct ok; cbn [negb] in Hrun; [|by injection Hrun as <- <-].
    unfold bind at 1, pollDone in Hrun. rewrite Hpolls in Hrun.
    destruct (ctxDone w) as [|b polls] eqn:Hp.
    + unfold bind at 1 in Hrun.
      destruct (connWrite_wrote PingFrame
                  {| conn := conn w1; calls := calls w1; ctxDone := tail [];
                     drawn := drawn w1; now := now w1 |})
        as (w3 & Hping & Hw3).
      rewrite Hping in Hrun. eapply IH; [|exact Hrun].
      destruct Hw3 as (_ & _ & _ & _ & -> & _). simpl. constructor.
    + apply Forall_cons in Hno as [-> Hno].
      unfold bind at 1 in Hrun.
      destruct (connWrite_wrote PingFrame
                  {| conn := conn w1; calls := calls w1; ctxDone := tail (false :: polls);
                     drawn := drawn w1; now := now w1 |})
        as (w3 & Hping & Hw3).
      rewrite Hping in Hrun. eapply IH; [|exact Hrun].
      destruct Hw3 as (_ & _ & _ & _ & -> & _). by simpl.
Qed.

(** X11.  [streamTaskOutput] calls [StopTask] at most once, on its own task
    and before it asks for the task's state; it calls [GetTask] once when
    its loop is left and not at all when the loop hangs; it makes no other
    call.  While the context is never seen done, it does not call
    [StopTask]. *)
Theorem streamTaskOutput_executor_calls
    (ctx : context.t) (taskID : string)
    (outputChan : channel.t domain.ProcessOutput)
    (w : World) (r : option unit) (w' : World) :
  streamTaskOutput h ctx taskID outputChan w = (r, w') ->
  exists stop,
    (stop = [] \/ stop = [CallStopTask taskID]) /\
    calls w' = calls w ++ stop ++ (if r is Some _ then [CallGetTask taskID] else []) /\
    (Forall (fun b => b = false) (ctxDone w) -> stop = []).
Proof.
  intros Hrun.
  destruct (streamOutputs_wrote h taskID (channel.sent outputChan)
              (channel.closed outputChan) w)
    as (written & e & w1 & fs & Hloop & _ & _ & _ & _ & _ & _ & _ & Hk).
  pose proof (streamTaskOutput_run h ctx taskID outputChan w e w1 Hloop) as Hfin.
  exists (if e is Some ContextDone then [CallStopTask taskID] else []).
  split; [destruct e as [[| | |]|]; by (left + right)|].
  split.
  - destruct e as [e|].
    + destruct Hfin as (w2 & Hfin & Hk2 & _). rewrite Hfin in Hrun.
      injection Hrun as <- <-. by rewrite Hk2, Hk, <- app_assoc.
    + rewrite Hfin in Hrun. injection Hrun as <- <-. by rewrite Hk, !app_nil_r.
  - intros Hno.
    pose proof (streamOutputs_never_cancelled _ _ _ _ _ _ Hno Hloop) as He.
    by destruct e as [[| | |]|].
Qed.

(** X12.  [sendPing] writes nothing but pings, one per tick, and calls
    nothing: it stops at the first ping that fails, which is the last write
    it tries, and writes nothing once the context is done or for a tick
    after it.  While the writes succeed it writes one ping for each tick
    that comes before the context is done. *)
Theorem sendPing_pings_until_failure
    (events : list PingEvent) (w : World) (r : option unit) (w' : World) :
  sendPing events w = (r, w') ->
  exists n (failed : bool),
    onlyWrote w w' (withOutcome true (replicate n PingFrame)
                    ++ (if failed then [(PingFrame, false)] else [])) /\
    n + (if failed then 1 else 0) <= leadingTicks events /\
    (r = None -> failed = false /\ n = length events) /\
    (Forall (fun b => b = true) (outcomes (conn w)) ->
     failed = false /\ n = leadingTicks events).
Proof.
  revert w r w'. induction events as [|ev events IH]; intros w r w' Hrun;
    cbn [sendPing] in Hrun.
  - injection Hrun as <- <-. exists 0, false. simpl. split; [apply onlyWrote_refl|].
    by split_and!.
  - destruct ev.
    + unfold bind at 1 in Hrun.
      destruct (connWrite_wrote PingFrame w) as (w1 & Hping & Hw1).
      rewrite Hping in Hrun.
      destruct (nextWriteOk (conn w)) eqn:Hnext.
      * destruct (IH w1 r w' Hrun) as (n & failed & Hw' & Hle & Hhang & Hok).
        exists (S n), failed. split_and!.
        -- exact (onlyWrote_trans _ _ _ _ _ Hw1 Hw').
        -- simpl. lia.
        -- intros Hr. destruct (Hhang Hr) as [-> ->]. by simpl.
        -- intros Hall. destruct Hok as [-> ->]; [|by simpl].
           destruct Hw1 as (_ & -> & _). by apply Forall_drop.
      * injection Hrun as <- <-. exists 0, true. simpl. split_and!; try done.
        -- lia.
        -- intros Hall. unfold nextWriteOk in Hnext.
           destruct (outcomes (conn w)) as [|b bs]; [done|].
           apply Forall_cons in Hall as [-> _]. done.
    + injection Hrun as <- <-. exists 0, false. simpl. split; [apply onlyWrote_refl|].
      split_and!; try done; lia.
Qed.

(** X13.  A request the upgrade rejects leaves no trace: nothing is written
    and nobody is called.  For an upgraded request the connection is closed
    when the read loop is left, and only then: no handler closes it, the
    last write tried is the close frame "Closing normally", and no call of
    the executor follows the loop.  When a handler hangs,
    [HandleConnection] does not return and the connection stays open. *)
Theorem HandleConnection_closes_after_loop
    (r : Request) (inbox : list WSMessage) (w : World) :
  (handshake r = false -> HandleConnection h r inbox w = (Some false, w)) /\
  (handshake r = true ->
   match readLoop h (context.WithCancel (reqContext r)) inbox w with
   | (Some _, w1) =>
       exists w',
         HandleConnection h r inbox w = (Some true, w') /\
         connClosed (conn w1) = connClosed (conn w) /\
         connClosed (conn w') = true /\
         tried (conn w') = tried (conn w1) ++ [CloseFrame 1000 "Closing normally"] /\
         calls w' = calls w1
   | (None, w1) =>
       HandleConnection h r inbox w = (None, w1) /\
       connClosed (conn w1) = connClosed (conn w)
   end).
Proof.
  unfold HandleConnection, Upgrade. simpl. split; intros ->; simpl; [done|].
  destruct (readLoop h (context.WithCancel (reqContext r)) inbox w) as [res w1] eqn:Hloop.
  destruct (readLoop_ran h _ inbox w res w1 Hloop) as (cs & fs & ids & (_ & _ & Hc & _) & _).
  destruct res as [[]|]; unfold bind at 1; rewrite Hloop; [|done].
  unfold bind at 1.
  destruct (connWrite_wrote (CloseFrame CloseNormalClosure "Closing normally") w1)
    as (w2 & -> & Ha & _ & _ & Hk & _).
  eexists. split; [reflexivity|]. unfold tried. simpl.
  split_and!; try done. by rewrite Ha, fmap_app.
Qed.

Lemma readLoop_cons_run ctx msg rest (w : World) r0 w0 :
  dispatch h ctx msg w = (r0, w0) ->
  readLoop h ctx (msg :: rest) w =
    match r0 with
    | Some _ => readLoop h ctx rest w0
    | None => (None, w0)
    end.
Proof.
  intros Hd. cbn [readLoop]. unfold bind at 1. rewrite Hd. by destruct r0 as [[]|].
Qed.

(** X15.  [sendJSON] answers [true] exactly when the data was serialised
    and the write succeeded, and then the envelope with the given action is
    what reached the client; when it answers [false] nothing reached the
    client, and when the data cannot be serialised no write is tried. *)
Theorem sendJSON_true_iff_delivered
    (action : string) (data : Data) (w : World) :
  exists ok w',
    sendJSON action data w = (Some ok, w') /\
    (ok = true <->
     exists raw, json_Marshal data = Some raw /\ nextWriteOk (conn w) = true) /\
    wire (conn w') = wire (conn w) ++
      (if ok
       then match json_Marshal data with
            | Some raw => [EnvelopeFrame {| Action := action; Payload := raw |}]
            | None => []
            end
       else []) /\
    (json_Marshal data = None -> w' = w).
Proof.
  destruct (sendJSON_wrote action data w) as (ok & w' & Hrun & Hok & Ha & _).
  exists ok, w'. split; [done|]. unfold envelopes in Ha.
  rewrite (wire_app _ _ _ Ha), withOutcome_wire. subst ok.
  destruct (json_Marshal data) as [raw|] eqn:Hm.
  - split; [split; [intros Hnext; by exists raw | by intros (? & _ & ?)]|].
    split; [by destruct (nextWriteOk (conn w)) | done].
  - split; [split; [done | by intros (? & ? & _)]|].
    split; [by destruct (nextWriteOk (conn w))|].
    intros _. unfold sendJSON in Hrun. rewrite Hm in Hrun. by injection Hrun as <-.
Qed.

End LoopExtras.

Section BlockingExtras.

Import websockets.
Local Open Scope go_scope.
Context `{D : domain.Package} `{L : Libraries}.
Variable h : WSHandler.

(** X16.  A task whose channel is never closed blocks the connection: once
    its records are relayed, [handleCreateTask] waits on the channel for
    ever, so the read loop handles none of the messages that follow, calls
    the executor no more, and writes nothing but the records. *)
Theorem open_channel_blocks_read_loop
    (ctx : context.t) (payload : string) (req : TaskRequest)
    (rest : list WSMessage) (w w0 : World)
    (task : domain.Task) (taskCtx : context.t)
    (outputChan : channel.t domain.ProcessOutput) :
  json_Unmarshal_TaskRequest payload = Some req ->
  Name req <> "" -> Image req <> "" ->
  createTaskFromRequest ctx req w = (Some (task, taskCtx), w0) ->
  AddTask (worker h) (calls w0) taskCtx task = inl outputChan ->
  channel.closed outputChan = false ->
  Forall (fun x => json_Marshal (DataResponse (outputResponse (domain.ID task) x)) <> None)
         (channel.sent outputChan) ->
  Forall (fun b => b = true) (outcomes (conn w)) ->
  exists w',
    readLoop h ctx ({| Action := "create_task"; Payload := payload |} :: rest) w
      = (None, w') /\
    calls w' = calls w ++ [CallAddTask taskCtx task] /\
    tried (conn w') =
      tried (conn w) ++ (channel.sent outputChan ≫= outputFrames (domain.ID task)) /\
    wire (conn w') =
      wire (conn w) ++ (channel.sent outputChan ≫= outputFrames (domain.ID task)) /\
    connClosed (conn w') = connClosed (conn w).
Proof.
  intros Hd Hn Hi Hc Hr Hopen Hall Hok.
  destruct (handleCreateTask_started h ctx payload req w w0 task taskCtx outputChan
              Hd Hn Hi Hc Hr) as (Hconn & Hcalls & Hrun).
  set (w1 := (worker_AddTask h taskCtx task w0).2) in *.
  destruct (relayOutputs_through (domain.ID task) (channel.sent outputChan) []
              (channel.closed outputChan) w1 Hall) as (w2 & Hw2 & Hrel).
  { rewrite Hconn. by apply Forall_take. }
  rewrite app_nil_r in Hrel. rewrite Hrel in Hrun.
  cbn [relayOutputs] in Hrun. rewrite Hopen in Hrun.
  change (hang w2) with (@None RelayExit, w2) in Hrun. cbv beta iota in Hrun.
  exists w2. split.
  { apply (readLoop_cons_run h ctx _ rest w None w2). unfold dispatch. simpl. exact Hrun. }
  destruct Hw2 as (Ha & _ & Hcl & Hk & _). rewrite Hconn in Ha, Hcl.
  rewrite (tried_app _ _ _ Ha), (wire_app _ _ _ Ha), withOutcome_fst, withOutcome_wire.
  by rewrite Hk, Hcalls.
Qed.

(** X17.  [streamTaskOutput] looks at the context after it has written a
    record, and only then: when its loop ends, the polls it has made are as
    many as the [task_output] envelopes that reached the client.  It is left
    through the cancellation on the first poll that answers "done", that is
    right after the record written before that poll, which the client has
    got; on every other exit all its polls answered "not done".  While the
    channel is open and silent it waits on it for ever, whether or not the
    context is done. *)
Theorem streamTaskOutput_polls_after_each_record
    (taskID : string) (pending : list domain.ProcessOutput) (closes : bool)
    (w : World) (e : option RelayExit) (w' : World) :
  streamOutputs h taskID pending closes w = (e, w') ->
  (exists fs k,
     attempts (conn w') = attempts (conn w) ++ fs /\
     k = length (outputsOf (successes fs)) /\
     ctxDone w' = drop k (ctxDone w) /\
     Forall (fun b => b = false)
            (take (if e is Some ContextDone then k - 1 else k) (ctxDone w)) /\
     (e = Some ContextDone -> 0 < k /\ ctxDone w !! (k - 1) = Some true) /\
     (e = None -> closes = false)) /\
  (pending = [] -> closes = false -> e = None /\ w' = w).
Proof.
  intros Hrun. split.
  2:{ intros -> ->. simpl in Hrun. by injection Hrun as <- <-. }
  revert w e w' Hrun.
  induction pending as [|output pending IH]; intros w e w' Hrun;
    cbn [streamOutputs] in Hrun.
  - exists [], 0. rewrite app_nil_r.
    destruct closes; injection Hrun as <- <-; split_and!; try done; constructor.
  - unfold bind at 1 in Hrun.
    destruct (sendJSON_wrote "task_output"
                (DataResponse (outputResponse taskID output)) w)
      as (ok & w1 & Hs & Hok & Hw1).
    rewrite Hs in Hrun. destruct Hw1 as (Ha1 & _ & _ & _ & Hpolls & _).
    unfold envelopes in Ha1.
    destruct (json_Marshal (DataResponse (outputResponse taskID output))) as [raw|];
      subst ok; cbn [negb] in Hrun.
    2:{ injection Hrun as <- <-. exists [], 0. rewrite drop_0.
        split_and!; try done; by try constructor. }
    destruct (nextWriteOk (conn w)); cbn [negb] in Hrun.
    2:{ injection Hrun as <- <-. eexists _, 0. rewrite drop_0.
        split; [exact Ha1|]. split_and!; try done; by try constructor. }
    simpl in Ha1.
    unfold bind at 1, pollDone in Hrun. rewrite Hpolls in Hrun.
    destruct (ctxDone w) as [|[] polls] eqn:Hp; simpl in Hrun.
    + unfold bind at 1 in Hrun.
      match type of Hrun with
      | context [connWrite PingFrame ?w2] =>
          destruct (connWrite_wrote PingFrame w2) as (w3 & Hping & Hw3)
      end.
      rewrite Hping in Hrun.
      destruct (IH w3 e w' Hrun) as (fs & k & Ha & Hk & Hdrop & Hall & Hdone & Hhang).
      destruct Hw3 as (Ha3 & _ & _ & _ & Hp3 & _). simpl in Ha3, Hp3.
      rewrite Hp3 in *. rewrite drop_nil in Hdrop.
      eexists (_ :: (PingFrame, _) :: fs), (S k).
      split; [by rewrite Ha, Ha3, Ha1, <- !app_assoc|].
      split.
      { rewrite Hk. change (?a :: ?b :: fs) with ([a] ++ [b] ++ fs).
        rewrite !successes_app, !outputsOf_app, outputsOf_ping. by simpl. }
      split; [by rewrite drop_nil|].
      split; [rewrite take_nil; constructor|].
      split; [|done].
      intros He. destruct (Hdone He) as [_ Hlook]. by rewrite lookup_nil in Hlook.
    + unfold bind at 1 in Hrun.
      match type of Hrun with
      | context [worker_StopTask h taskID ?w2] =>
          destruct (worker_StopTask_ran h taskID w2) as (w3 & Hstop & _ & Hp3 & _ & Hc3)
      end.
      rewrite Hstop in Hrun. injection Hrun as <- <-.
      eexists [_], 1. rewrite Hc3, Hp3. simpl.
      split; [exact Ha1|]. rewrite drop_0.
      split_and!; try done.
      intros _. split; [lia | done].
    + unfold bind at 1 in Hrun.
      match type of Hrun with
      | context [connWrite PingFrame ?w2] =>
          destruct (connWrite_wrote PingFrame w2) as (w3 & Hping & Hw3)
      end.
      rewrite Hping in Hrun.
      destruct (IH w3 e w' Hrun) as (fs & k & Ha & Hk & Hdrop & Hall & Hdone & Hhang).
      destruct Hw3 as (Ha3 & _ & _ & _ & Hp3 & _). simpl in Ha3, Hp3.
      rewrite Hp3 in *.
      eexists (_ :: (PingFrame, _) :: fs), (S k).
      split; [by rewrite Ha, Ha3, Ha1, <- !app_assoc|].
      split.
      { rewrite Hk. change (?a :: ?b :: fs) with ([a] ++ [b] ++ fs).
        rewrite !successes_app, !outputsOf_app, outputsOf_ping. by simpl. }
      split; [done|].
      split.
      { destruct e as [[| | |]|]; try (simpl; by constructor).
        destruct (Hdone eq_refl) as [Hpos _].
        replace (S k - 1) with (S (k - 1)) by lia. simpl. by constructor. }
      split; [|done].
      intros He. destruct (Hdone He) as [Hpos Hlook]. split; [lia|].
      replace (S k - 1) with (S (k - 1)) by lia. done.
Qed.

End BlockingExtras.

(** ** The further properties on the test doubles *)

Section ExtrasOnDoubles.

Import websockets.

(** Witness of X6: a valid request on a socket that breaks at once. *)
Lemma handleCreateTask_executor_calls_witness :
  let h := doubles.executor [doubles.line "hi" false doubles.RUNNING] (inl "Completed") in
  let run := handleCreateTask (D := doubles.package) (L := doubles.libs) h
               context.Background "name=hello;image=demo" (doubles.world [false] []) in
  exists task taskCtx,
    calls run.2 = [CallAddTask taskCtx task] /\
    domain.ID task = "task-0" /\ drawn run.2 = 1.
Proof.
  intros h run.
  destruct (handleCreateTask_executor_calls (D := doubles.package) (L := doubles.libs) h
              context.Background "name=hello;image=demo" (doubles.world [false] [])
              run.1 run.2 (surjective_pairing _)) as (_ & _ & Hvalid).
  destruct (Hvalid doubles.hello eq_refl ltac:(discriminate) ltac:(discriminate))
    as (task & taskCtx & w0 & _ & Hk & Hd & Hid & _).
  by exists task, taskCtx.
Defined.

(** Witness of X7: a timeout of 9223372037 seconds. *)
Lemma createTaskFromRequest_deadline_witness :
  let req := {| Name := "hello"; Image := "demo"; Command := []; Env := ∅;
                WorkingDir := ""; InstanceType := "docker";
                Timeout := 9223372037 |} in
  exists task taskCtx w0 d,
    createTaskFromRequest (D := doubles.package) (L := doubles.libs)
      context.Background req (doubles.world [] []) = (Some (task, taskCtx), w0) /\
    context.deadline taskCtx = Some d /\
    (d < now (doubles.world [] []))%Z.
Proof.
  intros req.
  destruct (createTaskFromRequest_ran (D := doubles.package) (L := doubles.libs)
              context.Background req (doubles.world [] []))
    as (task & taskCtx & w0 & Hc & _).
  destruct (createTaskFromRequest_deadline (D := doubles.package) (L := doubles.libs)
              context.Background req (doubles.world [] []) w0 task taskCtx Hc)
    as (_ & _ & Hwrap).
  destruct Hwrap as (d & Hd & Hlt); [simpl; lia|].
  by exists task, taskCtx, w0, d.
Defined.

Lemma serial_inj : Inj (=) (=) doubles.serial.
Proof.
  intros n m Heq. unfold doubles.serial in Heq. simpl in Heq.
  injection Heq as Heq. by apply (inj pretty).
Qed.

(** Witness of X8: two tasks created on one connection. *)
Lemma readLoop_task_ids_distinct_witness :
  let h := doubles.executor [] (inl "Completed") in
  let create := {| Action := "create_task"; Payload := "name=hello;image=demo" |} in
  let run := readLoop (D := doubles.package) (L := doubles.serialLibs) h
               context.Background [create; create] (doubles.world [] []) in
  exists cs,
    calls run.2 = cs /\
    addedIDs cs = doubles.serial <$> seq 0 (drawn run.2 - 0) /\
    NoDup (addedIDs cs).
Proof.
  intros h create run.
  exact (readLoop_task_ids_distinct (D := doubles.package) (L := doubles.serialLibs) h
           context.Background [create; create] (doubles.world [] []) run.1 run.2
           serial_inj (surjective_pairing _)).
Defined.

(** Witness of X11: the context is never done. *)
Lemma streamTaskOutput_executor_calls_witness :
  let h := doubles.executor [] (inl "Completed") in
  let run := streamTaskOutput (D := doubles.package) (L := doubles.libs) h
               context.Background "task-0"
               (doubles.closedChan [doubles.line "hi" false doubles.RUNNING])
               (doubles.world [] []) in
  exists stop,
    stop = [] /\
    calls run.2 = stop ++ (if run.1 is Some _ then [CallGetTask "task-0"] else []).
Proof.
  intros h run.
  destruct (streamTaskOutput_executor_calls (D := doubles.package) (L := doubles.libs) h
              context.Background "task-0"
              (doubles.closedChan [doubles.line "hi" false doubles.RUNNING])
              (doubles.world [] []) run.1 run.2 (surjective_pairing _))
    as (stop & _ & Hk & Hnone).
  exists stop. split; [apply Hnone; constructor | exact Hk].
Defined.

(** Witness of X12: two ticks, the second ping fails. *)
Lemma sendPing_pings_until_failure_witness :
  let run := sendPing [Tick; Tick; Tick; CtxDone] (doubles.world [true; false] []) in
  exists n (failed : bool),
    onlyWrote (doubles.world [true; false] []) run.2
      (withOutcome true (replicate n PingFrame)
       ++ (if failed then [(PingFrame, false)] else [])) /\
    n + (if failed then 1 else 0) <= 3.
Proof.
  intros run.
  destruct (sendPing_pings_until_failure [Tick; Tick; Tick; CtxDone]
              (doubles.world [true; false] []) run.1 run.2 (surjective_pairing _))
    as (n & failed & Hw & Hle & _).
  by exists n, failed.
Defined.

(** Witness of X16: a task that puts out one record and then stays silent,
    followed by a request to stop it. *)
Lemma open_channel_blocks_read_loop_witness :
  let h := doubles.streaming [doubles.line "hi" false doubles.RUNNING] in
  exists w',
    readLoop (D := doubles.package) (L := doubles.libs) h context.Background
      [{| Action := "create_task"; Payload := "name=hello;image=demo" |};
       {| Action := "stop_task"; Payload := "task-0" |}]
      (doubles.world [] []) = (None, w') /\
    (exists task taskCtx, calls w' = [CallAddTask taskCtx task]) /\
    connClosed (conn w') = false.
Proof.
  intros h.
  unshelve epose proof (open_channel_blocks_read_loop
              (D := doubles.package) (L := doubles.libs) h
              context.Background "name=hello;image=demo" doubles.hello
              [{| Action := "stop_task"; Payload := "task-0" |}] (doubles.world [] [])
              _ _ _ _ eq_refl _ _ eq_refl eq_refl eq_refl _ _)
    as (w' & Hrun & Hk & _ & _ & Hc).
  - discriminate.
  - discriminate.
  - repeat constructor; discriminate.
  - constructor.
  - exists w'. split; [exact Hrun|]. split; [eexists _, _; exact Hk | exact Hc].
Defined.

(** Witness of X17: the context is done at the second poll. *)
Lemma streamTaskOutput_polls_after_each_record_witness :
  let h := doubles.executor [] (inl "Completed") in
  let run := streamOutputs (D := doubles.package) (L := doubles.libs) h "task-0"
               [doubles.line "a" false doubles.RUNNING;
                doubles.line "b" false doubles.RUNNING;
                doubles.line "c" false doubles.RUNNING] true
               (doubles.world [] [false; true; false]) in
  run.1 = Some ContextDone /\
  exists fs k,
    attempts (conn run.2) = fs /\
    k = length (outputsOf (successes fs)) /\
    ctxDone run.2 = drop k [false; true; false] /\
    0 < k /\ [false; true; false] !! (k - 1) = Some true.
Proof.
  intros h run.
  assert (Hexit : run.1 = Some ContextDone) by (by vm_compute).
  split; [exact Hexit|].
  destruct (streamTaskOutput_polls_after_each_record
              (D := doubles.package) (L := doubles.libs) h "task-0"
              [doubles.line "a" false doubles.RUNNING;
               doubles.line "b" false doubles.RUNNING;
               doubles.line "c" false doubles.RUNNING] true
              (doubles.world [] [false; true; false]) run.1 run.2 (surjective_pairing _))
    as [(fs & k & Ha & Hk & Hdrop & _ & Hdone & _) _].
  destruct (Hdone Hexit) as [Hpos Hlook].
  by exists fs, k.
Defined.

End ExtrasOnDoubles.
